(** * GitFlow analytics: the ROI calculator and the bottleneck detector

    A shallow embedding of [ROICalculator] (backend service, TypeScript):
    [calculateROI], [identifyBottlenecks] and their private helpers.

    JavaScript numbers are IEEE 754 binary64 values, so they are embedded as
    Rocq's primitive [float]s: every arithmetic step below rounds exactly as
    the program does.  Universal statements are proved through the
    [spec_float] specification of the primitive operations.

    The logger calls are left out: they keep no state that the service
    reads. *)

From Stdlib Require Import ZArith List String Bool Lia.
From Stdlib Require Import Floats.
Import ListNotations.

Local Open Scope float_scope.
Set Warnings "-inexact-float".

(** ** JavaScript numbers *)

Module Js.

Definition number := float.

(** A number is falsy when it is [0], [-0] or [NaN]. *)
Definition falsy (x : number) : bool := is_zero x || is_nan x.

(** The integer a finite float denotes, rounded towards minus infinity. *)
Definition floorZ (s : bool) (m : positive) (e : Z) : Z :=
  let z := cond_Zopp s (Zpos m) in
  match e with
  | Zneg p => Z.div z (Z.pow 2 (Zpos p))
  | _ => Z.mul z (Z.pow 2 e)
  end.

(** The double nearest to an integer (exact below [2^53]). *)
Definition of_Z (z : Z) : number :=
  SF2Prim (binary_normalize prec emax z 0 false).

(** [Math.floor]: zeros, infinities and [NaN] are returned as they are;
    a positive number below one gives [+0]. *)
Definition Math_floor (x : number) : number :=
  match Prim2SF x with
  | S754_finite s m e =>
      match floorZ s m e with
      | Z0 => zero
      | z => of_Z z
      end
  | _ => x
  end.

(** [Math.max] of two arguments: [NaN] if either is, and [+0] above [-0]. *)
Definition Math_max (a b : number) : number :=
  if is_nan a || is_nan b then nan
  else if a <? b then b
  else if b <? a then a
  else if get_sign a then b else a.

End Js.

(** ** Values delivered by the database driver *)

(** The value of an [INTEGER] column as the service reads it: a missing
    property, SQL [NULL], or a number (the driver parses [int4]). *)
Inductive JsVal :=
| JUndefined
| JNull
| JNum (x : Js.number).

(** An integer column ([COUNT], [SUM]): absent, or a non-negative SQL
    [bigint]. *)
Definition SqlCount := option N.

(** [v || d] where [d] is a number: [d] replaces every falsy [v]. *)
Definition or_number (v : JsVal) (d : Js.number) : Js.number :=
  match v with
  | JNum x => if Js.falsy x then d else x
  | _ => d
  end.

(** [ToNumber] on the values above. *)
Definition to_number (v : JsVal) : Js.number :=
  match v with
  | JUndefined => nan
  | JNull => 0
  | JNum x => x
  end.

(** The text the driver delivers for a [NUMERIC] value, such as the [AVG] of
    an [INTEGER] column: its sign, its digits without the point, and the
    number of digits after the point.  ["-12.50"] has the digits [1250] and
    the scale [2]; ["0.0000"] has the digits [0] and the scale [4]. *)
Record Decimal := { negative : bool; digits : N; scale : N }.

Definition pow10 (n : N) : positive :=
  match n with
  | N0 => 1%positive
  | Npos p => Pos.pow 10 p
  end.

(** The number a decimal text denotes, rounded to the nearest double, ties
    to even: what both [parseFloat] and the conversion to a number in
    arithmetic read from it. *)
Definition decimalValue (t : Decimal) : Js.number :=
  match digits t with
  | N0 => if negative t then neg_zero else zero
  | Npos m =>
      SF2Prim (SF64div (S754_finite (negative t) m 0)
                       (S754_finite false (pow10 (scale t)) 0))
  end.

(** The value of an aggregate column: a missing property, SQL [NULL], a
    number, or the text of a [NUMERIC]. *)
Inductive Aggregate :=
| AUndefined
| ANull
| ANum (x : Js.number)
| AText (t : Decimal).

(** Truthiness: a text of digits is never empty, so it is truthy also when
    it denotes zero. *)
Definition truthy (v : Aggregate) : bool :=
  match v with
  | AUndefined | ANull => false
  | ANum x => negb (Js.falsy x)
  | AText _ => true
  end.

(** [v || d] with a number [d]. *)
Definition or_default (v : Aggregate) (d : Js.number) : Aggregate :=
  if truthy v then v else ANum d.

(** [ToNumber], as arithmetic applies it to its operands. *)
Definition toNumber (v : Aggregate) : Js.number :=
  match v with
  | AUndefined => nan
  | ANull => 0
  | ANum x => x
  | AText t => decimalValue t
  end.

(** [parseFloat(v || 'd')], where the literal ['d'] denotes the number [d]:
    a text is parsed, a truthy number prints and parses back to itself, and
    anything falsy is replaced by the literal. *)
Definition parseFloat_or (v : Aggregate) (d : Js.number) : Js.number :=
  match v with
  | AText t => decimalValue t
  | ANum x => if Js.falsy x then d else x
  | AUndefined | ANull => d
  end.

Definition of_N (n : N) : Js.number := of_uint63 (Uint63.of_Z (Z.of_N n)).

(** [parseInt(v || '0')] on an integer column. *)
Definition parseInt_or_zero (v : SqlCount) : Js.number :=
  match v with
  | Some n => of_N n
  | None => 0
  end.

(** [rows.length]. *)
Definition length_number {A : Type} (rows : list A) : Js.number :=
  of_N (N.of_nat (List.length rows)).

(** [result.rows[0]?.f] with the value [absent] when there is no first row. *)
Definition first_field {R V : Type} (absent : V) (f : R -> V) (rows : list R) : V :=
  match rows with
  | r :: _ => f r
  | [] => absent
  end.

(** ** Rows of the four queries *)

Record ConflictRow := {
  total_conflicts : SqlCount;
  avg_resolution_minutes : Aggregate;
  resolution_rate : Aggregate
}.

Record PredictionRow := {
  total_predictions : SqlCount;
  accuracy_rate : Aggregate;
  prevented_failures : SqlCount
}.

(** The aggregate row of [getEngineeringMetrics]; [{}] has every property
    missing. *)
Record EngineeringData := {
  avg_cycle_time : Aggregate;
  avg_lead_time : Aggregate;
  avg_deploy_freq : Aggregate
}.

Definition emptyObject : EngineeringData :=
  {| avg_cycle_time := AUndefined; avg_lead_time := AUndefined; avg_deploy_freq := AUndefined |}.

(** A row of [engineering_metrics], with the columns the service reads. *)
Module Sample.
Record t := {
  code_review_time : JsVal;
  cycle_time : JsVal;
  pr_merge_time : JsVal
}.
End Sample.

(** ** Results *)

Record ConflictData := {
  totalConflicts : Js.number;
  avgResolutionMinutes : Js.number;
  resolutionRate : Js.number
}.

Record PredictionData := {
  totalPredictions : Js.number;
  accuracyRate : Js.number;
  preventedFailures : Js.number
}.

Record ROIMetrics := {
  totalConflictsAvoided : Js.number;
  avgConflictResolutionTime : Js.number;
  timesSaved : Js.number;
  costSavings : Js.number;
  developerHourlyCost : Js.number;
  preventedBuildFailures : Js.number;
  cicdTimeSaved : Js.number;
  totalROI : Js.number;
  projectedAnnualSavings : Js.number
}.

Inductive BottleneckType := long_pr_review | merge_conflicts | slow_ci | delayed_deployments.

Inductive Impact := high | medium | low.

(** The description templates, kept with the number they print. *)
Inductive Description :=
| ReviewTimeText (hours : Js.number)
| ConflictShareText (percent : Js.number)
| CycleTimeText (hours : Js.number).

Record EngineeringBottleneck := {
  type : BottleneckType;
  description : Description;
  impact : Impact;
  estimatedCost : Js.number;
  recommendation : string
}.

Record AverageMetrics := {
  code_review_time : Js.number;
  cycle_time : Js.number;
  pr_merge_time : Js.number;
  prsPerWeek : Js.number;
  conflictRate : Js.number;
  avgConflictResolution : Js.number
}.

(** ** The pure helpers of [ROICalculator] *)

Definition DEFAULT_HOURLY_COST : Js.number := 75.

Definition calculateCICDSavings (engineeringData : EngineeringData) : Js.number :=
  let baselineCycleTime := 24 in
  let actualCycleTime := or_default (avg_cycle_time engineeringData) baselineCycleTime in
  let improvement := Js.Math_max 0 (baselineCycleTime - toNumber actualCycleTime) in
  improvement * 4.

(** The accumulator of the [reduce] in [calculateAverageMetrics]; it starts
    as [{}]. *)
Definition sumStep (acc row : Sample.t) : Sample.t :=
  {| Sample.code_review_time :=
       JNum (or_number (Sample.code_review_time acc) 0 + or_number (Sample.code_review_time row) 0);
     Sample.cycle_time :=
       JNum (or_number (Sample.cycle_time acc) 0 + or_number (Sample.cycle_time row) 0);
     Sample.pr_merge_time :=
       JNum (or_number (Sample.pr_merge_time acc) 0 + or_number (Sample.pr_merge_time row) 0) |}.

Definition emptyAcc : Sample.t :=
  {| Sample.code_review_time := JUndefined; Sample.cycle_time := JUndefined;
     Sample.pr_merge_time := JUndefined |}.

Definition calculateAverageMetrics (rows : list Sample.t) : AverageMetrics :=
  let sum := fold_left sumStep rows emptyAcc in
  {| code_review_time := to_number (Sample.code_review_time sum) / length_number rows;
     cycle_time := to_number (Sample.cycle_time sum) / length_number rows;
     pr_merge_time := to_number (Sample.pr_merge_time sum) / length_number rows;
     prsPerWeek := 20;
     conflictRate := 0.12;
     avgConflictResolution := 45 |}.

(** The savings computed by [calculateROI] once the three summaries are
    fetched. *)
Definition roiMetrics (conflictData : ConflictData) (predictionData : PredictionData)
    (engineeringData : EngineeringData) (timeframeDays : Js.number) : ROIMetrics :=
  let conflictsAvoided :=
    Js.Math_floor (totalPredictions predictionData * accuracyRate predictionData) in
  let avgResolutionTime :=
    or_number (JNum (avgResolutionMinutes conflictData)) 45 in
  let timesSavedHours := (conflictsAvoided * avgResolutionTime) / 60 in
  let hourlyCost := DEFAULT_HOURLY_COST in
  let costSavings := timesSavedHours * hourlyCost in
  let cicdTimeSaved := calculateCICDSavings engineeringData in
  let cicdCostSavings := cicdTimeSaved * (hourlyCost / 2) in
  let totalCostSavings := costSavings + cicdCostSavings in
  let projectedAnnualSavings := (totalCostSavings / timeframeDays) * 365 in
  {| totalConflictsAvoided := conflictsAvoided;
     avgConflictResolutionTime := avgResolutionTime;
     timesSaved := timesSavedHours;
     costSavings := costSavings;
     developerHourlyCost := hourlyCost;
     preventedBuildFailures := or_number (JNum (preventedFailures predictionData)) 0;
     cicdTimeSaved := cicdTimeSaved;
     totalROI := totalCostSavings;
     projectedAnnualSavings := projectedAnnualSavings |}.

(** The threshold rules of [identifyBottlenecks], applied to the averages in
    the order the source pushes its findings. *)
Definition bottleneckRules (avgMetrics : AverageMetrics) : list EngineeringBottleneck :=
  (if 240 <? code_review_time avgMetrics then
     let reviewCost :=
       ((code_review_time avgMetrics / 60) - 2) * DEFAULT_HOURLY_COST * prsPerWeek avgMetrics in
     [ {| type := long_pr_review;
          description := ReviewTimeText (code_review_time avgMetrics / 60);
          impact := if 480 <? code_review_time avgMetrics then high else medium;
          estimatedCost := reviewCost;
          recommendation := "Implement automated code review tools and set review SLAs" |} ]
   else [])
  ++
  (if 0.15 <? conflictRate avgMetrics then
     let conflictCost :=
       conflictRate avgMetrics * prsPerWeek avgMetrics
       * (avgConflictResolution avgMetrics / 60) * DEFAULT_HOURLY_COST in
     [ {| type := merge_conflicts;
          description := ConflictShareText (conflictRate avgMetrics * 100);
          impact := if 0.25 <? conflictRate avgMetrics then high else medium;
          estimatedCost := conflictCost;
          recommendation :=
            "Use GitFlow AI predictions to identify conflicts early and reduce branch lifetimes" |} ]
   else [])
  ++
  (if 48 <? cycle_time avgMetrics then
     [ {| type := slow_ci;
          description := CycleTimeText (cycle_time avgMetrics);
          impact := high;
          estimatedCost :=
            ((cycle_time avgMetrics - 24) / 24) * DEFAULT_HOURLY_COST * prsPerWeek avgMetrics;
          recommendation := "Optimize CI/CD pipeline and implement parallel testing" |} ]
   else []).

(** A division by the number of samples, as it is performed. *)
Record Division := { dividend : Js.number; divisor : Js.number }.

Definition quotient (d : Division) : Js.number := dividend d / divisor d.

(** A computation together with the divisions by the number of samples it
    performs, in order. *)
Definition Traced (A : Type) : Type := list Division * A.

(** [calculateAverageMetrics], keeping the three divisions of its sums by
    [rows.length]: each average is the quotient of the division recorded for
    it. *)
Definition calculateAverageMetricsTraced (rows : list Sample.t) : Traced AverageMetrics :=
  let sum := fold_left sumStep rows emptyAcc in
  let review :=
    {| dividend := to_number (Sample.code_review_time sum); divisor := length_number rows |} in
  let cycle :=
    {| dividend := to_number (Sample.cycle_time sum); divisor := length_number rows |} in
  let merge :=
    {| dividend := to_number (Sample.pr_merge_time sum); divisor := length_number rows |} in
  ([review; cycle; merge],
   {| code_review_time := quotient review;
      cycle_time := quotient cycle;
      pr_merge_time := quotient merge;
      prsPerWeek := 20;
      conflictRate := 0.12;
      avgConflictResolution := 45 |}).

(** What [identifyBottlenecks] does once the rows are fetched: it returns at
    once for an empty result ([metrics.rows.length === 0]); otherwise it
    averages the rows and applies the rules. *)
Definition bottlenecksTraced (rows : list Sample.t) : Traced (list EngineeringBottleneck) :=
  match rows with
  | [] => ([], [])
  | _ :: _ =>
      let (divisions, avgMetrics) := calculateAverageMetricsTraced rows in
      (divisions, bottleneckRules avgMetrics)
  end.

(** The findings [identifyBottlenecks] returns for the fetched rows. *)
Definition bottlenecksOf (rows : list Sample.t) : list EngineeringBottleneck :=
  snd (bottlenecksTraced rows).

(** ** Fetching: promises that resolve or reject, and the log of queries *)

(** [startDate]: the moment [daysBack] days before [today]. *)
Record Date := { today : Js.number; daysBack : Js.number }.

(** The queries the service sends, with their parameters. *)
Inductive Query :=
| SelectConflicts (repositoryId : Js.number) (startDate : Date)
| SelectPredictions (repositoryId : Js.number) (startDate : Date)
| SelectEngineering (repositoryId : Js.number) (startDate : Date)
| SelectRecentMetrics (repositoryId : Js.number).

Inductive Outcome (E A : Type) :=
| Resolved (a : A)
| Rejected (e : E).
Arguments Resolved {E A} a.
Arguments Rejected {E A} e.

(** An asynchronous computation: it extends the log of queries sent so far
    and settles. *)
Definition Async (E A : Type) : Type := list Query -> list Query * Outcome E A.

Definition ret {E A : Type} (a : A) : Async E A := fun log => (log, Resolved a).

Definition throw {E A : Type} (e : E) : Async E A := fun log => (log, Rejected e).

Definition bind {E A B : Type} (m : Async E A) (k : A -> Async E B) : Async E B :=
  fun log =>
    match m log with
    | (log', Resolved a) => k a log'
    | (log', Rejected e) => (log', Rejected e)
    end.

Definition try_catch {E A : Type} (m : Async E A) (handler : E -> Async E A) : Async E A :=
  fun log =>
    match m log with
    | (log', Resolved a) => (log', Resolved a)
    | (log', Rejected e) => handler e log'
    end.

Declare Scope async_scope.
Delimit Scope async_scope with async.
Notation "x <- m ;; k" := (bind m (fun x => k))
  (at level 100, m at next level, right associativity) : async_scope.

(** [await this.pool.query(...)]: the query is logged, then settles as the
    pool answers it. *)
Definition await_query {E A : Type} (q : Query) (answer : Outcome E A) : Async E A :=
  fun log => (log ++ [q], answer).

Section Service.

Variable Error : Type.

(** The connection pool, by the answer it gives each query. *)
Record Pool := {
  conflictRows : Js.number -> Date -> Outcome Error (list ConflictRow);
  predictionRows : Js.number -> Date -> Outcome Error (list PredictionRow);
  engineeringRows : Js.number -> Date -> Outcome Error (list EngineeringData);
  recentMetricRows : Js.number -> Outcome Error (list Sample.t)
}.

Variable pool : Pool.

Local Open Scope async_scope.

Definition getConflictMetrics (repositoryId : Js.number) (startDate : Date)
  : Async Error ConflictData :=
  rows <- await_query (SelectConflicts repositoryId startDate)
            (conflictRows pool repositoryId startDate) ;;
  ret {| totalConflicts := parseInt_or_zero (first_field None total_conflicts rows);
         avgResolutionMinutes :=
           parseFloat_or (first_field AUndefined avg_resolution_minutes rows) 45;
         resolutionRate :=
           parseFloat_or (first_field AUndefined resolution_rate rows) 0.85 |}.

Definition getPredictionMetrics (repositoryId : Js.number) (startDate : Date)
  : Async Error PredictionData :=
  rows <- await_query (SelectPredictions repositoryId startDate)
            (predictionRows pool repositoryId startDate) ;;
  ret {| totalPredictions := parseInt_or_zero (first_field None total_predictions rows);
         accuracyRate := parseFloat_or (first_field AUndefined accuracy_rate rows) 0.78;
         preventedFailures :=
           parseInt_or_zero (first_field None prevented_failures rows) |}.

Definition getEngineeringMetrics (repositoryId : Js.number) (startDate : Date)
  : Async Error EngineeringData :=
  rows <- await_query (SelectEngineering repositoryId startDate)
            (engineeringRows pool repositoryId startDate) ;;
  ret (match rows with r :: _ => r | [] => emptyObject end).

(** [calculateROI(repositoryId, timeframeDays = 30)], run at the moment
    [now]. *)
Definition calculateROI (now : Js.number) (repositoryId : Js.number)
    (timeframeDays : option Js.number) : Async Error ROIMetrics :=
  let timeframeDays := match timeframeDays with Some d => d | None => 30%float end in
  try_catch
    (let startDate := {| today := now; daysBack := timeframeDays |} in
     conflictData <- getConflictMetrics repositoryId startDate ;;
     predictionData <- getPredictionMetrics repositoryId startDate ;;
     engineeringData <- getEngineeringMetrics repositoryId startDate ;;
     ret (roiMetrics conflictData predictionData engineeringData timeframeDays))
    (fun error => throw error).

Definition identifyBottlenecks (repositoryId : Js.number)
  : Async Error (list EngineeringBottleneck) :=
  try_catch
    (metrics <- await_query (SelectRecentMetrics repositoryId)
                  (recentMetricRows pool repositoryId) ;;
     ret (bottlenecksOf metrics))
    (fun error => throw error).

End Service.

Arguments conflictRows {Error}.
Arguments predictionRows {Error}.
Arguments engineeringRows {Error}.
Arguments recentMetricRows {Error}.
Arguments getConflictMetrics {Error}.
Arguments getPredictionMetrics {Error}.
Arguments getEngineeringMetrics {Error}.
Arguments calculateROI {Error}.
Arguments identifyBottlenecks {Error}.


(** ** Reading a list of findings *)

Definition type_eqb (a b : BottleneckType) : bool :=
  match a, b with
  | long_pr_review, long_pr_review
  | merge_conflicts, merge_conflicts
  | slow_ci, slow_ci
  | delayed_deployments, delayed_deployments => true
  | _, _ => false
  end.

(** The kind and impact of each finding, in order. *)
Definition kinds (l : list EngineeringBottleneck) : list (BottleneckType * Impact) :=
  map (fun b => (type b, impact b)) l.

(** The impact of the first finding of a kind, if there is one. *)
Definition impactOf (k : BottleneckType) (l : list EngineeringBottleneck) : option Impact :=
  option_map snd (find (fun p => type_eqb (fst p) k) (kinds l)).

(** The first finding of a list known to have one ([l[0]]); a finding that
    no rule produces stands for a missing one. *)
Definition hd_bottleneck (l : list EngineeringBottleneck) : EngineeringBottleneck :=
  hd {| type := delayed_deployments; description := CycleTimeText nan; impact := low;
        estimatedCost := nan; recommendation := EmptyString |} l.

(** The kinds that are kept, in the order of the rules. *)
Definition ruleOrder (review conflicts ci : bool) : list BottleneckType :=
  (if review then [long_pr_review] else [])
  ++ (if conflicts then [merge_conflicts] else [])
  ++ (if ci then [slow_ci] else []).

(** ** Sample data *)

Definition scenarioA_conflicts : ConflictData :=
  {| totalConflicts := 12; avgResolutionMinutes := 45; resolutionRate := 0.85 |}.

Definition scenarioA_predictions : PredictionData :=
  {| totalPredictions := 100; accuracyRate := 0.8; preventedFailures := 3 |}.

(** The text of a non-negative [NUMERIC]. *)
Definition numeric (digits scale : N) : Aggregate :=
  AText {| negative := false; digits := digits; scale := scale |}.

(** ["24.0000000000000000"], ["30.0000000000000000"] and
    ["2.0000000000000000"]. *)
Definition scenarioA_engineering : EngineeringData :=
  {| avg_cycle_time := numeric 240000000000000000 16;
     avg_lead_time := numeric 300000000000000000 16;
     avg_deploy_freq := numeric 20000000000000000 16 |}.

(** A pool that answers every query; its conflict rows carry the average
    [avgMinutes]. *)
Definition steadyPool (avgMinutes : Aggregate) (recent : list Sample.t) : Pool string :=
  {| conflictRows := fun _ _ =>
       Resolved [ {| total_conflicts := Some 12%N;
                     avg_resolution_minutes := avgMinutes;
                     resolution_rate := numeric 85000000000000000000 20 |} ];
     predictionRows := fun _ _ =>
       Resolved [ {| total_predictions := Some 100%N;
                     accuracy_rate := numeric 80000000000000000000 20;
                     prevented_failures := Some 3%N |} ];
     engineeringRows := fun _ _ => Resolved [ scenarioA_engineering ];
     recentMetricRows := fun _ => Resolved recent |}.

(** A pool whose prediction query is rejected. *)
Definition brokenPool : Pool string :=
  {| conflictRows := fun _ _ => Resolved [];
     predictionRows := fun _ _ => Rejected "connection terminated"%string;
     engineeringRows := fun _ _ => Resolved [];
     recentMetricRows := fun _ => Rejected "connection terminated"%string |}.

(** An average cycle time of ["0.0000000000000000"] hours. *)
Definition zeroCycleTime : EngineeringData :=
  {| avg_cycle_time := numeric 0 16;
     avg_lead_time := numeric 10000000000000000 16;
     avg_deploy_freq := numeric 20000000000000000 16 |}.

(** An average cycle time of ["12.0000000000000000"] hours. *)
Definition scenarioB_engineering : EngineeringData :=
  {| avg_cycle_time := numeric 120000000000000000 16;
     avg_lead_time := numeric 300000000000000000 16;
     avg_deploy_freq := numeric 20000000000000000 16 |}.

(** An average cycle time of 0 hours from a driver set up to parse
    [NUMERIC] into numbers. *)
Definition zeroCycleTimeParsed : EngineeringData :=
  {| avg_cycle_time := ANum 0; avg_lead_time := ANum 1; avg_deploy_freq := ANum 2 |}.

Definition instantResolution : ConflictData :=
  {| totalConflicts := 12; avgResolutionMinutes := 0; resolutionRate := 1 |}.

Definition noPredictions : PredictionData :=
  {| totalPredictions := 0; accuracyRate := 0.78; preventedFailures := 0 |}.

(** Thirty daily samples with the same review and cycle times. *)
Definition flatWindow (review cycle : Js.number) : list Sample.t :=
  repeat {| Sample.code_review_time := JNum review;
            Sample.cycle_time := JNum cycle;
            Sample.pr_merge_time := JNum 90 |} 30.

Definition averagesWith (review cycle rate : Js.number) : AverageMetrics :=
  {| code_review_time := review;
     cycle_time := cycle;
     pr_merge_time := 90;
     prsPerWeek := 20;
     conflictRate := rate;
     avgConflictResolution := 45 |}.

(** ** Signs of binary64 values *)

(** Zero of either sign, a positive number or [+infinity]. *)
Definition sf_nonneg (x : spec_float) : bool :=
  match x with
  | S754_zero _ => true
  | S754_infinity s => negb s
  | S754_nan => false
  | S754_finite s _ _ => negb s
  end.

Definition sf_pos_finite (x : spec_float) : bool :=
  match x with
  | S754_finite false _ _ => true
  | _ => false
  end.

(** Zero or a finite number. *)
Definition sf_finite (x : spec_float) : bool :=
  match x with
  | S754_zero _ | S754_finite _ _ _ => true
  | _ => false
  end.

Definition sf_zero (x : spec_float) : bool :=
  match x with
  | S754_zero _ => true
  | _ => false
  end.

(** Carrying the sign [s]: a zero, or a number or infinity of that sign. *)
Definition sf_signed (s : bool) (x : spec_float) : bool :=
  match x with
  | S754_zero _ => true
  | S754_infinity s' => Bool.eqb s s'
  | S754_nan => false
  | S754_finite s' _ _ => Bool.eqb s s'
  end.

(** ** Reading rows *)

(** A column value that holds no number. *)
Definition absent (v : Aggregate) : bool :=
  match v with
  | AUndefined | ANull => true
  | ANum _ | AText _ => false
  end.

(** The aggregate is delivered as the number [x], or as a text that denotes
    [x]. *)
Definition delivers (v : Aggregate) (x : Js.number) : Prop :=
  v = ANum x \/ exists t, v = AText t /\ decimalValue t = x.


(** A column value that [|| 0] replaces: anything missing, [NULL], [0] or
    [NaN]. *)
Definition falsyValue (v : JsVal) : bool :=
  match v with
  | JNum x => Js.falsy x
  | _ => true
  end.

(** The sum the [reduce] of [calculateAverageMetrics] keeps for one column,
    from the values of that column. *)
Definition columnSum (values : list JsVal) (acc : JsVal) : JsVal :=
  fold_left (fun a v => JNum (or_number a 0 + or_number v 0)) values acc.

(** A row with [0] in place of every value that [|| 0] replaces. *)
Definition zeroFalsy (row : Sample.t) : Sample.t :=
  {| Sample.code_review_time := JNum (or_number (Sample.code_review_time row) 0);
     Sample.cycle_time := JNum (or_number (Sample.cycle_time row) 0);
     Sample.pr_merge_time := JNum (or_number (Sample.pr_merge_time row) 0) |}.

(** A window of two samples: one with the given review and cycle times, then
    one whose review time is [NULL], whose cycle time is [0] and whose merge
    time is missing. *)
Definition measuredThenMissing (review cycle : Js.number) : list Sample.t :=
  [ {| Sample.code_review_time := JNum review; Sample.cycle_time := JNum cycle;
       Sample.pr_merge_time := JNum 90 |} ] ++
  [ {| Sample.code_review_time := JNull; Sample.cycle_time := JNum 0;
       Sample.pr_merge_time := JUndefined |} ].

(** A pool over a repository without any record in the window: the
    aggregates come back over no row, the engineering query finds nothing. *)
Definition emptyRepositoryPool : Pool string :=
  {| conflictRows := fun _ _ =>
       Resolved [ {| total_conflicts := Some 0%N; avg_resolution_minutes := ANull;
                     resolution_rate := ANull |} ];
     predictionRows := fun _ _ =>
       Resolved [ {| total_predictions := Some 0%N; accuracy_rate := ANull;
                     prevented_failures := None |} ];
     engineeringRows := fun _ _ => Resolved [];
     recentMetricRows := fun _ => Resolved [] |}.

(** A column value that [|| 0] turns into a number that is not negative:
    anything missing, [NULL], [NaN], or a number from [0] upwards. *)
Definition notNegative (v : JsVal) : bool := 0 <=? or_number v 0.

(** ** The monitoring service *)

Module Monitoring.

Record Request := {
  path : string;
  method : string;
  user : option string
}.

Record Response := { res_statusCode : Js.number }.

Record MetricData := {
  timestamp : Js.number;
  endpoint : string;
  metric_method : string;
  statusCode : Js.number;
  responseTime : Js.number;
  userId : option string
}.

(** What the logger is asked to write. *)
Inductive LogEntry :=
| SlowRequest (method path : string) (responseTime : Js.number)
| ErrorResponse (method path : string) (statusCode : Js.number).

(** The service: its array of metrics, and what it has logged so far. *)
Record MonitoringService := {
  metrics : list MetricData;
  logged : list LogEntry
}.

Definition MAX_METRICS : nat := N.to_nat 10000.

(** [new MonitoringService()]. *)
Definition monitoring : MonitoringService := {| metrics := []; logged := [] |}.

(** [array.slice(-n)] for a positive [n]: the last [n] elements, all of them
    when there are fewer. *)
Definition slice_last {A : Type} (n : nat) (l : list A) : list A :=
  skipn (List.length l - n) l.

(** [recordRequest(req, res, responseTime)], called when the clock shows
    [now]. *)
Definition recordRequest (this : MonitoringService) (now : Js.number)
    (req : Request) (res : Response) (responseTime : Js.number) : MonitoringService :=
  let metric :=
    {| timestamp := now;
       endpoint := path req;
       metric_method := method req;
       statusCode := res_statusCode res;
       responseTime := responseTime;
       userId := user req |} in
  let pushed := metrics this ++ [metric] in
  let kept :=
    if Nat.ltb MAX_METRICS (List.length pushed) then slice_last MAX_METRICS pushed
    else pushed in
  let slow :=
    if 1000 <? responseTime
    then [SlowRequest (method req) (path req) responseTime] else [] in
  let failed :=
    if 400 <=? res_statusCode res
    then [ErrorResponse (method req) (path req) (res_statusCode res)] else [] in
  {| metrics := kept; logged := logged this ++ slow ++ failed |}.

(** [getMetrics(since?)], called when the clock shows [now]. *)
Definition getMetrics (this : MonitoringService) (since : option Js.number)
    (now : Js.number) : list MetricData :=
  let cutoff :=
    match since with
    | Some s => if Js.falsy s then now - 3600000 else s
    | None => now - 3600000
    end in
  filter (fun m => cutoff <=? timestamp m) (metrics this).

(** One call of [recordRequest], with what it is given. *)
Record Call := {
  call_now : Js.number;
  call_req : Request;
  call_res : Response;
  call_responseTime : Js.number
}.

Definition metricOf (c : Call) : MetricData :=
  {| timestamp := call_now c;
     endpoint := path (call_req c);
     metric_method := method (call_req c);
     statusCode := res_statusCode (call_res c);
     responseTime := call_responseTime c;
     userId := user (call_req c) |}.

(** The service after a sequence of calls of [recordRequest]. *)
Definition recordAll (this : MonitoringService) (calls : list Call) : MonitoringService :=
  fold_left
    (fun service c =>
       recordRequest service (call_now c) (call_req c) (call_res c) (call_responseTime c))
    calls this.

End Monitoring.

(** A request that took 1.2 seconds and was answered with 500. *)
Definition sampleCall : Monitoring.Call :=
  {| Monitoring.call_now := 1700000000000;
     Monitoring.call_req :=
       {| Monitoring.path := "/api/analytics/calculate-roi";
          Monitoring.method := "POST";
          Monitoring.user := None |};
     Monitoring.call_res := {| Monitoring.res_statusCode := 500 |};
     Monitoring.call_responseTime := 1200 |}.

(** A request answered with 200 in 80 milliseconds, 59 minutes after
    [sampleCall]. *)
Definition laterCall : Monitoring.Call :=
  {| Monitoring.call_now := 1700003540000;
     Monitoring.call_req :=
       {| Monitoring.path := "/api/analytics/bottlenecks";
          Monitoring.method := "GET";
          Monitoring.user := Some "u42"%string |};
     Monitoring.call_res := {| Monitoring.res_statusCode := 200 |};
     Monitoring.call_responseTime := 80 |}.

(** * Facts about binary64 arithmetic *)

Module Binary64.
Local Open Scope Z_scope.

Lemma digits2_pos_bounds (p : positive) :
  2 ^ (Zpos (digits2_pos p) - 1) <= Zpos p < 2 ^ Zpos (digits2_pos p).
Proof.
  induction p as [p IH | p IH |]; cbn [digits2_pos].
  - rewrite Pos2Z.inj_succ.
    replace (Z.succ (Zpos (digits2_pos p)) - 1) with (Z.succ (Zpos (digits2_pos p) - 1)) by lia.
    rewrite !Z.pow_succ_r by lia.
    revert IH. generalize (2 ^ (Zpos (digits2_pos p) - 1)) (2 ^ Zpos (digits2_pos p)). lia.
  - rewrite Pos2Z.inj_succ.
    replace (Z.succ (Zpos (digits2_pos p)) - 1) with (Z.succ (Zpos (digits2_pos p) - 1)) by lia.
    rewrite !Z.pow_succ_r by lia.
    revert IH. generalize (2 ^ (Zpos (digits2_pos p) - 1)) (2 ^ Zpos (digits2_pos p)). lia.
  - cbn. lia.
Qed.

Lemma shr_1_halves (mrs : shr_record) :
  0 <= shr_m mrs -> shr_m (shr_1 mrs) = Z.div2 (shr_m mrs).
Proof.
  destruct mrs as [m r s]; cbn [shr_m].
  destruct m as [| [p | p |] | p]; intros H; try reflexivity; lia.
Qed.

Lemma iter_shr_1 (p : positive) : forall mrs,
  0 <= shr_m mrs -> shr_m (iter_pos shr_1 p mrs) = shr_m mrs / 2 ^ Zpos p.
Proof.
  assert (step : forall mrs, 0 <= shr_m mrs -> shr_m (shr_1 mrs) = shr_m mrs / 2).
  { intros mrs H. rewrite shr_1_halves by exact H. apply Z.div2_div. }
  assert (pos2 : forall q, 0 < 2 ^ Zpos q) by (intros; apply Z.pow_pos_nonneg; lia).
  assert (twice : forall m q, m / 2 ^ Zpos q / 2 ^ Zpos q = m / 2 ^ Zpos q~0).
  { intros m q. specialize (pos2 q). rewrite Z.div_div by lia. f_equal.
    rewrite <- Z.pow_add_r by lia. f_equal. lia. }
  induction p as [p IH | p IH |]; intros mrs H; cbn [iter_pos].
  - assert (H1 : 0 <= shr_m (shr_1 mrs)) by (rewrite step by exact H; apply Z.div_pos; lia).
    assert (H2 : 0 <= shr_m (iter_pos shr_1 p (shr_1 mrs))).
    { rewrite IH by exact H1. apply Z.div_pos; [exact H1 | apply pos2]. }
    rewrite (IH _ H2), (IH _ H1), (step _ H), twice.
    specialize (pos2 p~0%positive). rewrite Z.div_div by lia.
    replace (2 ^ Zpos p~1) with (2 * 2 ^ Zpos p~0); [reflexivity |].
    change (Zpos p~1) with (1 + Zpos p~0). rewrite Z.pow_add_r by lia. reflexivity.
  - assert (H1 : 0 <= shr_m (iter_pos shr_1 p mrs)).
    { rewrite IH by exact H. apply Z.div_pos; [exact H | apply pos2]. }
    rewrite (IH _ H1), (IH _ H). apply twice.
  - rewrite step by exact H. reflexivity.
Qed.

(** [shr_fexp] divides the mantissa by a power of two and raises the exponent
    by the same amount. *)
Lemma shr_fexp_spec (m e : Z) (l : location) :
  0 <= m ->
  let k := Z.max 0 (fexp prec emax (Zdigits2 m + e) - e) in
  shr_m (fst (shr_fexp prec emax m e l)) = m / 2 ^ k /\
  snd (shr_fexp prec emax m e l) = e + k.
Proof.
  intros Hm k. unfold shr_fexp, shr.
  assert (Hrec : shr_m (shr_record_of_loc m l) = m) by (destruct l as [| []]; reflexivity).
  subst k. destruct (fexp prec emax (Zdigits2 m + e) - e) as [| p | p]; cbn [fst snd].
  - rewrite Hrec, Z.max_id. cbn. rewrite Z.div_1_r. lia.
  - rewrite iter_shr_1 by (rewrite Hrec; exact Hm).
    rewrite Hrec, Z.max_r by lia. split; reflexivity.
  - rewrite Hrec, Z.max_l by lia. cbn. rewrite Z.div_1_r. lia.
Qed.

Lemma Zdigits2_bounds (m : Z) :
  0 < m -> 2 ^ (Zdigits2 m - 1) <= m /\ 0 < Zdigits2 m.
Proof.
  destruct m as [| p | p]; try lia. intros _. cbn [Zdigits2].
  split; [apply digits2_pos_bounds | lia].
Qed.

(** Above the subnormal range a positive mantissa stays positive when it is
    brought to precision, and the exponent does not decrease. *)
Lemma shr_fexp_pos (m e : Z) (l : location) :
  0 < m -> emin <= e ->
  0 < shr_m (fst (shr_fexp prec emax m e l)) /\ e <= snd (shr_fexp prec emax m e l).
Proof.
  intros Hm He.
  destruct (shr_fexp_spec m e l) as [Hv He']; [lia |].
  rewrite Hv, He'. clear Hv He'.
  destruct (Zdigits2_bounds m Hm) as [Hd Hd0].
  set (d := Zdigits2 m) in *.
  assert (Hk : 0 <= Z.max 0 (fexp prec emax (d + e) - e) <= d - 1).
  { unfold fexp, SpecFloat.emin, prec, emax in *. lia. }
  split; [| lia].
  apply Z.div_str_pos. split; [apply Z.pow_pos_nonneg; lia |].
  apply Z.le_trans with (2 ^ (d - 1)); [apply Z.pow_le_mono_r; lia | exact Hd].
Qed.

Lemma round_nearest_even_ge (m : Z) (l : location) : m <= round_nearest_even m l.
Proof.
  destruct l as [| []]; cbn [round_nearest_even]; try lia.
  destruct (Z.even m); lia.
Qed.

Lemma binary_round_aux_pos (s : bool) (m e : Z) (l : location) :
  0 < m -> emin <= e ->
  (exists m' e', binary_round_aux prec emax s m e l = S754_finite s m' e' /\ e <= e')
  \/ binary_round_aux prec emax s m e l = S754_infinity s.
Proof.
  intros Hm He. unfold binary_round_aux.
  destruct (shr_fexp_pos m e l Hm He) as [H1 E1].
  destruct (shr_fexp prec emax m e l) as [mrs1 e1]. cbn [fst snd] in H1, E1.
  pose proof (round_nearest_even_ge (shr_m mrs1) (loc_of_shr_record mrs1)) as Hr.
  set (m2 := round_nearest_even (shr_m mrs1) (loc_of_shr_record mrs1)) in *.
  destruct (shr_fexp_pos m2 e1 loc_Exact) as [H2 E2]; [lia | lia |].
  destruct (shr_fexp prec emax m2 e1 loc_Exact) as [mrs2 e2]. cbn [fst snd] in H2, E2.
  destruct (shr_m mrs2) as [| p | p]; try lia.
  destruct (e2 <=? emax - prec); [left | right; reflexivity].
  exists p, e2. split; [reflexivity | lia].
Qed.

Lemma binary_round_aux_nonneg (m e : Z) (l : location) :
  0 <= m -> sf_nonneg (binary_round_aux prec emax false m e l) = true.
Proof.
  intros Hm. unfold binary_round_aux.
  destruct (shr_fexp_spec m e l Hm) as [H1 _].
  destruct (shr_fexp prec emax m e l) as [mrs1 e1]. cbn [fst] in H1.
  assert (H1' : 0 <= shr_m mrs1).
  { rewrite H1. apply Z.div_pos; [exact Hm | apply Z.pow_pos_nonneg; lia]. }
  pose proof (round_nearest_even_ge (shr_m mrs1) (loc_of_shr_record mrs1)) as Hr.
  set (m2 := round_nearest_even (shr_m mrs1) (loc_of_shr_record mrs1)) in *.
  destruct (shr_fexp_spec m2 e1 loc_Exact) as [H2 _]; [lia |].
  destruct (shr_fexp prec emax m2 e1 loc_Exact) as [mrs2 e2]. cbn [fst] in H2.
  assert (H2' : 0 <= shr_m mrs2).
  { rewrite H2. apply Z.div_pos; [lia | apply Z.pow_pos_nonneg; lia]. }
  destruct (shr_m mrs2) as [| p | p]; try reflexivity; try lia.
  destruct (e2 <=? emax - prec); reflexivity.
Qed.

Lemma pos_iter_xO (m d : positive) : Zpos (Pos.iter xO m d) = Zpos m * 2 ^ Zpos d.
Proof.
  induction d as [| d IH] using Pos.peano_ind.
  - cbn. lia.
  - rewrite Pos.iter_succ, Pos2Z.inj_succ, Z.pow_succ_r by lia.
    change (Zpos (Pos.iter xO m d)~0) with (2 * Zpos (Pos.iter xO m d)). rewrite IH. ring.
Qed.

Lemma shl_align_fst (m : positive) (e e' : Z) :
  e' <= e -> Zpos (fst (shl_align m e e')) = Zpos m * 2 ^ (e - e').
Proof.
  intros H. unfold shl_align.
  destruct (e' - e) as [| d | d] eqn:E; cbn [fst].
  - replace (e - e') with 0 by lia. cbn. lia.
  - lia.
  - rewrite pos_iter_xO. f_equal. f_equal. lia.
Qed.

Lemma binary_round_nonneg (m : positive) (e : Z) :
  sf_nonneg (binary_round prec emax false m e) = true.
Proof.
  unfold binary_round. destruct (shl_align m e _) as [mz ez].
  apply binary_round_aux_nonneg. lia.
Qed.

(** Subtracting a smaller positive number leaves a result that is not
    negative. *)
Lemma SFsub_nonneg (mx my : positive) (ex ey : Z) :
  Zpos my * 2 ^ (ey - Z.min ex ey) <= Zpos mx * 2 ^ (ex - Z.min ex ey) ->
  sf_nonneg (SF64sub (S754_finite false mx ex) (S754_finite false my ey)) = true.
Proof.
  intros H. unfold SF64sub, SFsub. cbn [cond_Zopp].
  rewrite !shl_align_fst by lia.
  destruct (Zpos mx * 2 ^ (ex - Z.min ex ey) - Zpos my * 2 ^ (ey - Z.min ex ey))
    as [| p | p] eqn:E; cbn [binary_normalize].
  - reflexivity.
  - apply binary_round_nonneg.
  - lia.
Qed.

Lemma SFmul_nonneg (x y : spec_float) :
  sf_nonneg x = true -> sf_pos_finite y = true -> sf_nonneg (SF64mul x y) = true.
Proof.
  destruct y as [| | | [] my ey]; try discriminate.
  destruct x as [sx | [] | | [] mx ex]; try discriminate; intros _ _;
    unfold SF64mul; cbn [SFmul xorb].
  - reflexivity.
  - reflexivity.
  - apply binary_round_aux_nonneg. lia.
Qed.

Lemma SFdiv_core_nonneg (m1 m2 : positive) (e1 e2 : Z) :
  0 <= fst (fst (SFdiv_core_binary prec emax (Zpos m1) e1 (Zpos m2) e2)).
Proof.
  unfold SFdiv_core_binary.
  set (s := e1 - e2 - _).
  set (m' := match s with Zpos _ => Z.shiftl (Zpos m1) s | Z0 => Zpos m1 | Zneg _ => 0 end).
  assert (Hm : 0 <= m').
  { subst m'. destruct s; try lia. apply Z.shiftl_nonneg. lia. }
  pose proof (Z.div_pos m' (Zpos m2) Hm ltac:(lia)) as Hq.
  unfold Z.div in Hq. destruct (Z.div_eucl m' (Zpos m2)) as [q r]. exact Hq.
Qed.

Lemma SFdiv_nonneg (x y : spec_float) :
  sf_nonneg x = true -> sf_pos_finite y = true -> sf_nonneg (SF64div x y) = true.
Proof.
  destruct y as [| | | [] my ey]; try discriminate.
  destruct x as [sx | [] | | [] mx ex]; try discriminate; intros _ _;
    unfold SF64div; cbn [SFdiv xorb].
  - reflexivity.
  - reflexivity.
  - pose proof (SFdiv_core_nonneg mx my ex ey) as Hq.
    destruct (SFdiv_core_binary prec emax (Zpos mx) ex (Zpos my) ey) as [[mz ez] lz].
    apply binary_round_aux_nonneg. exact Hq.
Qed.

(** What [c < x] says of [x] when [c] is positive and finite. *)
Lemma SFltb_above (mc : positive) (ec : Z) (x : spec_float) :
  SFltb (S754_finite false mc ec) x = true ->
  x = S754_infinity false \/
  exists m e, x = S754_finite false m e /\ (ec < e \/ (e = ec /\ Zpos mc < Zpos m)).
Proof.
  unfold SFltb.
  destruct x as [s | [] | | [] m e]; cbn [SFcompare]; try discriminate.
  - left. reflexivity.
  - intros H. right. exists m, e. split; [reflexivity |].
    destruct (Z.compare_spec ec e) as [E | E | E]; try discriminate.
    + right. split; [lia |].
      change (Pos.compare_cont Eq mc m) with (Pos.compare mc m) in H.
      destruct (Pos.compare_spec mc m); try discriminate. lia.
    + left. exact E.
Qed.

(** A valid number above the subnormal range carries a full mantissa. *)
Lemma valid_normal (s : bool) (m : positive) (e : Z) :
  valid_binary (S754_finite s m e) = true -> emin < e ->
  Zpos (digits2_pos m) = prec /\ 2 ^ 52 <= Zpos m.
Proof.
  cbn [SpecFloat.valid_binary]. unfold bounded, canonical_mantissa. intros H He.
  apply andb_prop in H. destruct H as [H _]. apply Z.eqb_eq in H.
  assert (D : Zpos (digits2_pos m) = prec).
  { unfold fexp, SpecFloat.emin, prec, emax in *. lia. }
  split; [exact D |].
  pose proof (digits2_pos_bounds m) as B. rewrite D in B.
  change (prec - 1) with 52 in B. lia.
Qed.

(** The quotient of two full mantissas, before rounding. *)
Lemma SFdiv_core_normal (m1 m2 : positive) (e1 e2 : Z) :
  Zpos (digits2_pos m1) = prec -> Zpos (digits2_pos m2) = prec ->
  emin + prec <= e1 - e2 ->
  exists q l,
    SFdiv_core_binary prec emax (Zpos m1) e1 (Zpos m2) e2 = (q, e1 - e2 - prec, l) /\ 0 < q.
Proof.
  intros D1 D2 He. unfold SFdiv_core_binary. cbn [Zdigits2]. rewrite D1, D2.
  assert (E : Z.min (fexp prec emax (prec + e1 - (prec + e2))) (e1 - e2) = e1 - e2 - prec).
  { unfold fexp, SpecFloat.emin, prec, emax in *. lia. }
  rewrite E. replace (e1 - e2 - (e1 - e2 - prec)) with prec by lia.
  change prec with 53 at 1 2.
  pose proof (digits2_pos_bounds m1) as B1. pose proof (digits2_pos_bounds m2) as B2.
  rewrite D1 in B1. rewrite D2 in B2. change (prec - 1) with 52 in *. change prec with 53 in B1, B2.
  rewrite Z.shiftl_mul_pow2 by lia.
  assert (Hq : 0 < Zpos m1 * 2 ^ 53 / Zpos m2).
  { apply Z.div_str_pos. split; [lia |]. nia. }
  unfold Z.div in Hq.
  destruct (Z.div_eucl (Zpos m1 * 2 ^ 53) (Zpos m2)) as [q r]. cbn [fst] in Hq.
  exists q, (new_location (Zpos m2) r). split; [reflexivity | exact Hq].
Qed.

(** *** From the specification back to primitive floats *)

Local Open Scope float_scope.

Lemma leb_zero_of_nonneg (x : float) :
  sf_nonneg (Prim2SF x) = true -> (0 <=? x) = true.
Proof.
  rewrite leb_spec. change (Prim2SF 0) with (S754_zero false).
  destruct (Prim2SF x) as [s | [] | | [] m e]; try discriminate; reflexivity.
Qed.

Lemma mul_nonneg (x c : float) :
  sf_nonneg (Prim2SF x) = true -> sf_pos_finite (Prim2SF c) = true ->
  sf_nonneg (Prim2SF (x * c)) = true.
Proof. rewrite mul_spec. apply SFmul_nonneg. Qed.

Lemma div_nonneg (x c : float) :
  sf_nonneg (Prim2SF x) = true -> sf_pos_finite (Prim2SF c) = true ->
  sf_nonneg (Prim2SF (x / c)) = true.
Proof. rewrite div_spec. apply SFdiv_nonneg. Qed.

(** A float above a positive normal constant is [+infinity] or a positive
    normal number. *)
Lemma ltb_above (c x : float) (mc : positive) (ec : Z) :
  Prim2SF c = S754_finite false mc ec -> (emin < ec)%Z -> (c <? x) = true ->
  Prim2SF x = S754_infinity false \/
  exists m e, Prim2SF x = S754_finite false m e /\
    Zpos (digits2_pos m) = prec /\ (2 ^ 52 <= Zpos m)%Z /\
    (ec < e \/ (e = ec /\ Zpos mc < Zpos m))%Z.
Proof.
  intros Hc Hec H. rewrite ltb_spec, Hc in H.
  destruct (SFltb_above _ _ _ H) as [Hx | (m & e & Hx & Hcmp)]; [left; exact Hx | right].
  exists m, e. split; [exact Hx |].
  pose proof (Prim2SF_valid x) as V. rewrite Hx in V.
  destruct (valid_normal _ _ _ V ltac:(lia)) as [D B]. auto.
Qed.

Lemma ltb_above_nonneg (c x : float) (mc : positive) (ec : Z) :
  Prim2SF c = S754_finite false mc ec -> (c <? x) = true -> sf_nonneg (Prim2SF x) = true.
Proof.
  intros Hc H. rewrite ltb_spec, Hc in H.
  destruct (SFltb_above _ _ _ H) as [Hx | (m & e & Hx & _)]; rewrite Hx; reflexivity.
Qed.

(** [x > 240] leaves [x / 60 - 2] non-negative. *)
Lemma review_excess_nonneg (x : float) :
  (240 <? x) = true -> sf_nonneg (Prim2SF (x / 60 - 2)) = true.
Proof.
  intros H.
  destruct (ltb_above 240 x 8444249301319680 (-45) eq_refl ltac:(reflexivity) H)
    as [Hx | (m & e & Hx & D & B & Hcmp)].
  - rewrite sub_spec, div_spec, Hx. reflexivity.
  - assert (He : (-45 <= e)%Z) by lia.
    rewrite sub_spec.
    assert (Hq : Prim2SF (x / 60) = S754_infinity false \/
                 exists m' e', Prim2SF (x / 60) = S754_finite false m' e' /\ (-51 <= e')%Z).
    { rewrite div_spec, Hx.
      change (Prim2SF 60) with (S754_finite false 8444249301319680 (-47)).
      unfold SF64div. cbn [SFdiv xorb].
      destruct (SFdiv_core_normal m 8444249301319680 e (-47) D eq_refl) as (q & l & Hcore & Hq).
      { unfold SpecFloat.emin, prec, emax. lia. }
      rewrite Hcore.
      destruct (binary_round_aux_pos false q (e - -47 - prec) l Hq) as [(m' & e' & Hr & He') | Hr].
      { unfold SpecFloat.emin, prec, emax. lia. }
      - right. exists m', e'. split; [exact Hr | unfold prec in He'; lia].
      - left. exact Hr. }
    destruct Hq as [Hq | (m' & e' & Hq & He')].
    + rewrite Hq. reflexivity.
    + pose proof (Prim2SF_valid (x / 60)) as V. rewrite Hq in V.
      destruct (valid_normal _ _ _ V) as [_ B']; [unfold SpecFloat.emin, prec, emax; lia |].
      rewrite Hq. change (Prim2SF 2) with (S754_finite false 4503599627370496 (-51)).
      apply SFsub_nonneg. rewrite Z.min_r by lia.
      replace (-51 - -51)%Z with 0%Z by lia.
      assert (0 < 2 ^ (e' - -51))%Z by (apply Z.pow_pos_nonneg; lia).
      change (2 ^ 52)%Z with 4503599627370496%Z in B'. nia.
Qed.

(** [x > 48] leaves [x - 24] non-negative. *)
Lemma cycle_excess_nonneg (x : float) :
  (48 <? x) = true -> sf_nonneg (Prim2SF (x - 24)) = true.
Proof.
  intros H.
  destruct (ltb_above 48 x 6755399441055744 (-47) eq_refl ltac:(reflexivity) H)
    as [Hx | (m & e & Hx & D & B & Hcmp)].
  - rewrite sub_spec, Hx. reflexivity.
  - rewrite sub_spec, Hx.
    change (Prim2SF 24) with (S754_finite false 6755399441055744 (-48)).
    apply SFsub_nonneg. rewrite Z.min_r by lia.
    replace (-48 - -48)%Z with 0%Z by lia.
    assert (2 ^ 1 <= 2 ^ (e - -48))%Z by (apply Z.pow_le_mono_r; lia).
    change (2 ^ 52)%Z with 4503599627370496%Z in B. change (2 ^ 1)%Z with 2%Z in *. nia.
Qed.

(** *** Finite numbers and zeros *)

Lemma is_finite_spec (x : float) : is_finite x = true -> sf_finite (Prim2SF x) = true.
Proof.
  unfold is_finite, is_nan, is_infinity. rewrite !eqb_spec, abs_spec.
  change (Prim2SF infinity) with (S754_infinity false).
  destruct (Prim2SF x) as [s | s | | s m e]; try reflexivity; cbn.
  - rewrite orb_true_r. discriminate.
  - discriminate.
Qed.

Lemma is_zero_spec (x : float) : is_zero x = SFeqb (Prim2SF x) (S754_zero false).
Proof. unfold is_zero. rewrite eqb_spec. reflexivity. Qed.

Lemma eqb_zero_of_zero (x : float) : sf_zero (Prim2SF x) = true -> (x =? 0) = true.
Proof.
  rewrite eqb_spec. change (Prim2SF 0) with (S754_zero false).
  destruct (Prim2SF x); try discriminate. reflexivity.
Qed.

Lemma mul_zero_finite (z a : float) :
  sf_zero (Prim2SF z) = true -> sf_finite (Prim2SF a) = true ->
  sf_zero (Prim2SF (z * a)) = true.
Proof.
  rewrite mul_spec.
  destruct (Prim2SF z); try discriminate.
  destruct (Prim2SF a); try discriminate; reflexivity.
Qed.

Lemma div_zero_finite (z c : float) :
  sf_zero (Prim2SF z) = true -> sf_pos_finite (Prim2SF c) = true ->
  sf_zero (Prim2SF (z / c)) = true.
Proof.
  rewrite div_spec.
  destruct (Prim2SF z); try discriminate.
  destruct (Prim2SF c) as [| | | [] m e]; try discriminate; reflexivity.
Qed.

(** [Math.floor] leaves a zero as it is. *)
Lemma Math_floor_zero (z : float) : sf_zero (Prim2SF z) = true -> Js.Math_floor z = z.
Proof.
  unfold Js.Math_floor. destruct (Prim2SF z); try discriminate. reflexivity.
Qed.

(** *** Counts *)

Lemma binary_round_pos (s : bool) (p : positive) (e : Z) :
  (emin <= e)%Z ->
  (exists m' e', binary_round prec emax s p e = S754_finite s m' e')
  \/ binary_round prec emax s p e = S754_infinity s.
Proof.
  intros He. unfold binary_round.
  assert (Hf : (emin <= fexp prec emax (Zpos (digits2_pos p) + e))%Z).
  { unfold fexp. lia. }
  set (e' := fexp prec emax (Zpos (digits2_pos p) + e)) in *.
  assert (Hz : (emin <= snd (shl_align p e e'))%Z).
  { unfold shl_align. destruct (e' - e)%Z; cbn [snd]; lia. }
  destruct (shl_align p e e') as [mz ez]. cbn [snd] in Hz.
  destruct (binary_round_aux_pos s (Zpos mz) ez loc_Exact ltac:(lia) Hz)
    as [(m' & e'' & Hr & _) | Hr].
  - left. exists m', e''. exact Hr.
  - right. exact Hr.
Qed.

(** A count of at least one is never the number zero. *)
Lemma of_N_nonzero (n : N) : (0 < n < 2 ^ 63)%N -> is_zero (of_N n) = false.
Proof.
  intros Hn. rewrite is_zero_spec. unfold of_N.
  rewrite of_uint63_spec, Uint63.of_Z_spec.
  rewrite Z.mod_small.
  2:{ change Uint63.wB with 9223372036854775808%Z.
      change (2 ^ 63)%N with 9223372036854775808%N in Hn. lia. }
  destruct n as [| p]; [lia |]. cbn [Z.of_N binary_normalize].
  destruct (binary_round_pos false p 0) as [(m' & e' & Hr) | Hr];
    [unfold SpecFloat.emin, prec, emax; lia | |]; rewrite Hr; reflexivity.
Qed.
End Binary64.

(** * The service, run against a pool *)

Section Runs.

Context {Error : Type}.
Variable pool : Pool Error.

(** The summaries the three getters build from the first row of each
    answer. *)
Lemma getConflictMetrics_run repositoryId startDate log :
  getConflictMetrics pool repositoryId startDate log =
  (log ++ [SelectConflicts repositoryId startDate],
   match conflictRows pool repositoryId startDate with
   | Resolved rows =>
       Resolved
         {| totalConflicts := parseInt_or_zero (first_field None total_conflicts rows);
            avgResolutionMinutes :=
              parseFloat_or (first_field AUndefined avg_resolution_minutes rows) 45;
            resolutionRate :=
              parseFloat_or (first_field AUndefined resolution_rate rows) 0.85 |}
   | Rejected e => Rejected e
   end).
Proof.
  unfold getConflictMetrics, bind, await_query, ret.
  destruct (conflictRows pool repositoryId startDate); reflexivity.
Qed.

Lemma identifyBottlenecks_run repositoryId log :
  identifyBottlenecks pool repositoryId log =
  (log ++ [SelectRecentMetrics repositoryId],
   match recentMetricRows pool repositoryId with
   | Resolved rows => Resolved (bottlenecksOf rows)
   | Rejected e => Rejected e
   end).
Proof.
  unfold identifyBottlenecks, try_catch, bind, await_query, ret, throw.
  destruct (recentMetricRows pool repositoryId); reflexivity.
Qed.

End Runs.

(** * Return on investment *)

(** C1 (scenario A).  With 100 predictions at accuracy 0.8, an average
    resolution time of 45 minutes, an average cycle time of 24 hours and a
    window of 30 days, the report has 80 conflicts avoided, 60 hours saved,
    4500 of cost savings at the hourly cost of 75, no CI/CD hours saved,
    total savings of 4500 and projected annual savings of 54750; each figure
    is obtained from the previous ones by the stated formulas. *)
Theorem roi_scenario_A (conflictData : ConflictData) (predictionData : PredictionData)
    (engineeringData : EngineeringData) :
  totalPredictions predictionData = 100 ->
  accuracyRate predictionData = 0.8 ->
  avgResolutionMinutes conflictData = 45 ->
  delivers (avg_cycle_time engineeringData) 24 ->
  let r := roiMetrics conflictData predictionData engineeringData 30 in
  (totalConflictsAvoided r = 80 /\ timesSaved r = 60 /\ costSavings r = 4500 /\
   developerHourlyCost r = 75 /\ cicdTimeSaved r = 0 /\ totalROI r = 4500 /\
   projectedAnnualSavings r = 54750) /\
  (totalConflictsAvoided r =
     Js.Math_floor (totalPredictions predictionData * accuracyRate predictionData) /\
   timesSaved r = totalConflictsAvoided r * avgResolutionMinutes conflictData / 60 /\
   costSavings r = timesSaved r * developerHourlyCost r /\
   totalROI r = costSavings r + cicdTimeSaved r * (developerHourlyCost r / 2) /\
   projectedAnnualSavings r = totalROI r / 30 * 365).
Proof.
  intros Hn Ha Hm Hc r. subst r.
  assert (E : toNumber (or_default (avg_cycle_time engineeringData) 24) = 24).
  { destruct Hc as [-> | (t & -> & Ht)]; [reflexivity | exact Ht]. }
  unfold roiMetrics, calculateCICDSavings.
  cbn [totalConflictsAvoided timesSaved costSavings developerHourlyCost cicdTimeSaved
       totalROI projectedAnnualSavings].
  rewrite Hn, Ha, Hm, E.
  vm_compute. repeat split; reflexivity.
Qed.

Lemma roi_scenario_A_witness :
  let r := roiMetrics scenarioA_conflicts scenarioA_predictions scenarioA_engineering 30 in
  (totalConflictsAvoided r = 80 /\ timesSaved r = 60 /\ costSavings r = 4500 /\
   developerHourlyCost r = 75 /\ cicdTimeSaved r = 0 /\ totalROI r = 4500 /\
   projectedAnnualSavings r = 54750) /\
  (totalConflictsAvoided r =
     Js.Math_floor (totalPredictions scenarioA_predictions * accuracyRate scenarioA_predictions) /\
   timesSaved r = totalConflictsAvoided r * avgResolutionMinutes scenarioA_conflicts / 60 /\
   costSavings r = timesSaved r * developerHourlyCost r /\
   totalROI r = costSavings r + cicdTimeSaved r * (developerHourlyCost r / 2) /\
   projectedAnnualSavings r = totalROI r / 30 * 365).
Proof.
  apply (roi_scenario_A scenarioA_conflicts scenarioA_predictions scenarioA_engineering);
    try reflexivity.
  right. eexists. split; [reflexivity |]. vm_compute. reflexivity.
Defined.

(** The same scenario end to end: the three queries are sent in order and
    the promise resolves with the report. *)
Example calculateROI_scenario_A :
  calculateROI (steadyPool (numeric 450000000000000000 16) []) 1700000000000 7 None [] =
  ([SelectConflicts 7 {| today := 1700000000000; daysBack := 30 |};
    SelectPredictions 7 {| today := 1700000000000; daysBack := 30 |};
    SelectEngineering 7 {| today := 1700000000000; daysBack := 30 |}],
   Resolved
     {| totalConflictsAvoided := 80;
        avgConflictResolutionTime := 45;
        timesSaved := 60;
        costSavings := 4500;
        developerHourlyCost := 75;
        preventedBuildFailures := 3;
        cicdTimeSaved := 0;
        totalROI := 4500;
        projectedAnnualSavings := 54750 |}).
Proof. vm_compute. reflexivity. Qed.

(** C2, as the code has it.  Whatever [timeframeDays] is, positive or not,
    [calculateROI] sends its queries in order until one is rejected.  It is
    rejected exactly when one of the three fetches is, with the error of that
    fetch unchanged, and it resolves otherwise: the input is never
    validated, so there is no other failure. *)
Theorem calculateROI_failure_modes {Error : Type} (pool : Pool Error)
    (now repositoryId : Js.number) (timeframeDays : option Js.number) (log : list Query) :
  let days := match timeframeDays with Some d => d | None => 30 end in
  let startDate := {| today := now; daysBack := days |} in
  let q1 := SelectConflicts repositoryId startDate in
  let q2 := SelectPredictions repositoryId startDate in
  let q3 := SelectEngineering repositoryId startDate in
  let run := calculateROI pool now repositoryId timeframeDays log in
  match conflictRows pool repositoryId startDate with
  | Rejected e => run = (log ++ [q1], Rejected e)
  | Resolved _ =>
      match predictionRows pool repositoryId startDate with
      | Rejected e => run = (log ++ [q1; q2], Rejected e)
      | Resolved _ =>
          match engineeringRows pool repositoryId startDate with
          | Rejected e => run = (log ++ [q1; q2; q3], Rejected e)
          | Resolved _ => exists r, run = (log ++ [q1; q2; q3], Resolved r)
          end
      end
  end.
Proof.
  cbv [calculateROI try_catch bind getConflictMetrics getPredictionMetrics
       getEngineeringMetrics await_query ret throw].
  destruct (conflictRows pool _ _) as [crows | e1]; [| reflexivity].
  destruct (predictionRows pool _ _) as [prows | e2];
    [| rewrite <- app_assoc; reflexivity].
  destruct (engineeringRows pool _ _) as [erows | e3];
    rewrite <- !app_assoc; [eexists |]; reflexivity.
Qed.

(** C2, as stated, fails: with a window of zero days nothing is rejected.
    The three queries are sent, and the report divides by the zero window. *)
Lemma calculateROI_zero_days_not_rejected :
  (0 <=? 0) = true /\
  calculateROI (steadyPool (numeric 450000000000000000 16) []) 1700000000000 7 (Some 0) [] =
  ([SelectConflicts 7 {| today := 1700000000000; daysBack := 0 |};
    SelectPredictions 7 {| today := 1700000000000; daysBack := 0 |};
    SelectEngineering 7 {| today := 1700000000000; daysBack := 0 |}],
   Resolved
     {| totalConflictsAvoided := 80;
        avgConflictResolutionTime := 45;
        timesSaved := 60;
        costSavings := 4500;
        developerHourlyCost := 75;
        preventedBuildFailures := 3;
        cicdTimeSaved := 0;
        totalROI := 4500;
        projectedAnnualSavings := infinity |}) /\
  ~ (exists e, calculateROI (steadyPool (numeric 450000000000000000 16) []) 1700000000000 7 (Some 0) []
               = ([], Rejected e)).
Proof.
  split; [reflexivity |]. split; [vm_compute; reflexivity |].
  intros [e H]. vm_compute in H. discriminate H.
Qed.

(** A rejected fetch reaches the caller as it is, also with a negative
    window, after the queries before it were sent. *)
Example calculateROI_rejected_fetch :
  calculateROI brokenPool 1700000000000 7 (Some (-7)) [] =
  ([SelectConflicts 7 {| today := 1700000000000; daysBack := -7 |};
    SelectPredictions 7 {| today := 1700000000000; daysBack := -7 |}],
   Rejected "connection terminated"%string).
Proof. vm_compute. reflexivity. Qed.

(** ** CI/CD savings *)

(** For an average cycle time delivered as a truthy number the savings are
    [max(0, 24 - avg) * 4]; a missing average counts as the baseline. *)
Lemma calculateCICDSavings_truthy (engineeringData : EngineeringData) (avg : Js.number) :
  avg_cycle_time engineeringData = ANum avg -> Js.falsy avg = false ->
  calculateCICDSavings engineeringData = Js.Math_max 0 (24 - avg) * 4.
Proof.
  intros H T. unfold calculateCICDSavings, or_default, truthy. rewrite H, T. reflexivity.
Qed.

Lemma calculateCICDSavings_missing : calculateCICDSavings emptyObject = 0.
Proof. vm_compute. reflexivity. Qed.

(** A text that denotes zero reads as a zero. *)
Lemma decimalValue_zero (t : Decimal) :
  digits t = 0%N -> decimalValue t = 0 \/ decimalValue t = -0.
Proof.
  intros H. unfold decimalValue. rewrite H. destruct (negative t); auto.
Qed.

(** C3.  For every average cycle time the database supplies, a [NUMERIC]
    that reaches the service as its text, the CI/CD hours saved are
    [max(0, 24 - avg) * 4], in [calculateCICDSavings] and in the report of
    [calculateROI].  The text is truthy also when it denotes zero, so an
    average of 0 hours is not taken for a missing one: it gives 96. *)
Theorem calculateCICDSavings_formula (engineeringData : EngineeringData) (t : Decimal) :
  avg_cycle_time engineeringData = AText t ->
  calculateCICDSavings engineeringData = Js.Math_max 0 (24 - decimalValue t) * 4 /\
  (forall conflictData predictionData timeframeDays,
     cicdTimeSaved (roiMetrics conflictData predictionData engineeringData timeframeDays)
     = Js.Math_max 0 (24 - decimalValue t) * 4) /\
  (digits t = 0%N -> calculateCICDSavings engineeringData = 96).
Proof.
  intros H.
  assert (E : calculateCICDSavings engineeringData
              = Js.Math_max 0 (24 - decimalValue t) * 4).
  { unfold calculateCICDSavings, or_default, truthy. rewrite H. reflexivity. }
  split; [exact E |]. split; [intros; exact E |].
  intros Z. rewrite E. destruct (decimalValue_zero t Z) as [-> | ->]; reflexivity.
Qed.

Lemma calculateCICDSavings_formula_witness :
  calculateCICDSavings zeroCycleTime = 96 /\
  cicdTimeSaved (roiMetrics scenarioA_conflicts scenarioA_predictions zeroCycleTime 30) = 96 /\
  calculateCICDSavings scenarioB_engineering = 48.
Proof.
  destruct (calculateCICDSavings_formula zeroCycleTime _ eq_refl) as (E & R & Z).
  destruct (calculateCICDSavings_formula scenarioB_engineering _ eq_refl) as (B & _ & _).
  split; [apply Z; reflexivity |]. split.
  - rewrite R, <- E. apply Z. reflexivity.
  - rewrite B. vm_compute. reflexivity.
Defined.

(** A driver set up to parse [NUMERIC] into numbers would hand over the
    falsy number 0, for which the baseline is taken. *)
Example calculateCICDSavings_parsed_zero :
  calculateCICDSavings zeroCycleTimeParsed = 0.
Proof. vm_compute. reflexivity. Qed.

(** ** The resolution time *)

(** A truthy average resolution time is used as supplied. *)
Lemma roiMetrics_truthy_resolution (conflictData : ConflictData)
    (predictionData : PredictionData) (engineeringData : EngineeringData)
    (timeframeDays : Js.number) :
  Js.falsy (avgResolutionMinutes conflictData) = false ->
  let r := roiMetrics conflictData predictionData engineeringData timeframeDays in
  avgConflictResolutionTime r = avgResolutionMinutes conflictData /\
  timesSaved r = totalConflictsAvoided r * avgResolutionMinutes conflictData / 60.
Proof.
  intros T r. subst r. unfold roiMetrics, or_number.
  cbn [avgConflictResolutionTime timesSaved totalConflictsAvoided].
  rewrite T. split; reflexivity.
Qed.

(** Where the window has no matching row the aggregate is [NULL], and the
    getter supplies the default of 45 minutes. *)
Lemma getConflictMetrics_no_rows {Error : Type} (pool : Pool Error)
    (repositoryId : Js.number) (startDate : Date) (log : list Query)
    (count : SqlCount) (rate : Aggregate) :
  conflictRows pool repositoryId startDate
    = Resolved [ {| total_conflicts := count; avg_resolution_minutes := ANull;
                    resolution_rate := rate |} ] ->
  exists log' conflictData,
    getConflictMetrics pool repositoryId startDate log = (log', Resolved conflictData) /\
    avgResolutionMinutes conflictData = 45.
Proof.
  intros H. rewrite getConflictMetrics_run, H. eexists. eexists.
  split; reflexivity.
Qed.

(** C4 at an average resolution time of 0 minutes, in a window that has
    matching rows: used unchanged, 0 minutes would save 0 hours; the code
    replaces the falsy 0 by the default of 45 and reports 60 hours. *)
Theorem roiMetrics_zero_resolution_time :
  avgResolutionMinutes instantResolution = 0 /\
  totalConflicts instantResolution = 12 /\
  80 * avgResolutionMinutes instantResolution / 60 = 0 /\
  let r := roiMetrics instantResolution scenarioA_predictions scenarioA_engineering 30 in
  totalConflictsAvoided r = 80 /\
  avgConflictResolutionTime r = 45 /\
  timesSaved r = 60.
Proof. vm_compute. repeat split; reflexivity. Qed.

(** The same through the pool: twelve matching rows whose average resolution
    time is 0. *)
Example calculateROI_zero_resolution_time :
  exists log r,
    calculateROI (steadyPool (numeric 0 16) []) 1700000000000 7 (Some 30) [] = (log, Resolved r) /\
    avgConflictResolutionTime r = 45 /\ timesSaved r = 60.
Proof. eexists. eexists. vm_compute. repeat split; reflexivity. Qed.

(** ** No predictions *)

(** C5.  With no predictions in the window, no conflict is avoided and no
    time is saved, whatever the (finite) accuracy rate and resolution time
    are. *)
Theorem roiMetrics_no_predictions (conflictData : ConflictData)
    (predictionData : PredictionData) (engineeringData : EngineeringData)
    (timeframeDays : Js.number) :
  totalPredictions predictionData = 0 ->
  is_finite (accuracyRate predictionData) = true ->
  is_finite (avgResolutionMinutes conflictData) = true ->
  let r := roiMetrics conflictData predictionData engineeringData timeframeDays in
  (totalConflictsAvoided r =? 0) = true /\ (timesSaved r =? 0) = true.
Proof.
  intros Hn Ha Hm r. subst r. unfold roiMetrics.
  cbn [totalConflictsAvoided timesSaved]. rewrite Hn.
  assert (Z0 : sf_zero (Prim2SF (0 * accuracyRate predictionData)) = true).
  { apply Binary64.mul_zero_finite; [reflexivity | apply Binary64.is_finite_spec, Ha]. }
  rewrite (Binary64.Math_floor_zero _ Z0).
  split; [apply Binary64.eqb_zero_of_zero, Z0 |].
  apply Binary64.eqb_zero_of_zero, Binary64.div_zero_finite; [| reflexivity].
  apply Binary64.mul_zero_finite; [exact Z0 |].
  unfold or_number. destruct (Js.falsy (avgResolutionMinutes conflictData)).
  - reflexivity.
  - apply Binary64.is_finite_spec, Hm.
Qed.

Lemma roiMetrics_no_predictions_witness :
  let r := roiMetrics scenarioA_conflicts noPredictions scenarioA_engineering 30 in
  (totalConflictsAvoided r =? 0) = true /\ (timesSaved r =? 0) = true.
Proof.
  apply (roiMetrics_no_predictions scenarioA_conflicts noPredictions scenarioA_engineering 30);
    reflexivity.
Defined.

(** * Bottlenecks *)

Lemma bottlenecksOf_cons (r : Sample.t) (rows : list Sample.t) :
  bottlenecksOf (r :: rows) = bottleneckRules (calculateAverageMetrics (r :: rows)).
Proof. reflexivity. Qed.

(** The rates that [calculateAverageMetrics] does not derive from the rows. *)
Lemma average_placeholders (rows : list Sample.t) :
  prsPerWeek (calculateAverageMetrics rows) = 20 /\
  conflictRate (calculateAverageMetrics rows) = 0.12 /\
  avgConflictResolution (calculateAverageMetrics rows) = 45.
Proof. repeat split; reflexivity. Qed.

(** The kinds and impacts the rules give, read off the three tests. *)
Lemma kinds_bottleneckRules (avg : AverageMetrics) :
  kinds (bottleneckRules avg) =
  (if 240 <? code_review_time avg
   then [(long_pr_review, if 480 <? code_review_time avg then high else medium)] else [])
  ++ (if 0.15 <? conflictRate avg
      then [(merge_conflicts, if 0.25 <? conflictRate avg then high else medium)] else [])
  ++ (if 48 <? cycle_time avg then [(slow_ci, high)] else []).
Proof.
  unfold bottleneckRules, kinds.
  destruct (240 <? code_review_time avg), (0.15 <? conflictRate avg),
    (48 <? cycle_time avg); reflexivity.
Qed.

Lemma kinds_types (l : list EngineeringBottleneck) : map fst (kinds l) = map type l.
Proof. unfold kinds. rewrite map_map. reflexivity. Qed.

(** The kinds found are those of the rules that trigger, in the order of the
    rules. *)
Lemma types_bottleneckRules (avg : AverageMetrics) :
  map type (bottleneckRules avg)
  = ruleOrder (240 <? code_review_time avg) (0.15 <? conflictRate avg)
      (48 <? cycle_time avg).
Proof.
  rewrite <- kinds_types, kinds_bottleneckRules. unfold ruleOrder.
  destruct (240 <? code_review_time avg), (0.15 <? conflictRate avg),
    (48 <? cycle_time avg); reflexivity.
Qed.

(** ** The empty window *)

(** Averaging an empty window would divide by a zero count. *)
Example calculateAverageMetrics_nil :
  is_zero (length_number (@nil Sample.t)) = true /\
  is_nan (code_review_time (calculateAverageMetrics [])) = true /\
  is_nan (cycle_time (calculateAverageMetrics [])) = true.
Proof. vm_compute. repeat split; reflexivity. Qed.

Lemma length_number_nonzero {A : Type} (rows : list A) :
  rows <> [] -> (Z.of_nat (List.length rows) < 4294967296)%Z ->
  is_zero (length_number rows) = false.
Proof.
  intros Hne Hlen. unfold length_number. apply Binary64.of_N_nonzero.
  change (2 ^ 63)%N with 9223372036854775808%N.
  destruct rows as [| r rows]; [congruence |]. cbn [List.length] in *. lia.
Qed.

(** The averages of the traced computation are those of
    [calculateAverageMetrics]. *)
Lemma calculateAverageMetricsTraced_value (rows : list Sample.t) :
  snd (calculateAverageMetricsTraced rows) = calculateAverageMetrics rows.
Proof. reflexivity. Qed.

(** Without the guard, the three divisions would be by a zero count. *)
Lemma calculateAverageMetricsTraced_nil :
  List.length (fst (calculateAverageMetricsTraced [])) = 3%nat /\
  Forall (fun d => is_zero (divisor d) = true) (fst (calculateAverageMetricsTraced [])).
Proof. split; [reflexivity |]. repeat constructor. Qed.

(** The divisions of a window with at least one sample are by its count. *)
Lemma bottlenecksTraced_cons (r : Sample.t) (rows : list Sample.t) :
  bottlenecksTraced (r :: rows)
  = (fst (calculateAverageMetricsTraced (r :: rows)),
     bottleneckRules (calculateAverageMetrics (r :: rows))) /\
  Forall (fun d => divisor d = length_number (r :: rows)) (fst (bottlenecksTraced (r :: rows))).
Proof. split; [reflexivity |]. repeat constructor. Qed.

(** C6.  When the query finds no sample for the repository, the promise
    resolves with the empty list straight after the fetch, and no division
    is performed on this path: the three divisions by the number of samples,
    which would be by zero for an empty window, are performed only for a
    window with at least one sample.  Hence no division by a zero count is
    ever performed, whatever the window (array lengths are below [2^32]). *)
Theorem identifyBottlenecks_no_samples {Error : Type} (pool : Pool Error)
    (repositoryId : Js.number) (log : list Query) :
  recentMetricRows pool repositoryId = Resolved [] ->
  identifyBottlenecks pool repositoryId log
    = (log ++ [SelectRecentMetrics repositoryId], Resolved [])
  /\ bottlenecksTraced [] = ([], [])
  /\ bottlenecksOf [] = []
  /\ Forall (fun d => is_zero (divisor d) = true) (fst (calculateAverageMetricsTraced []))
  /\ (forall rows : list Sample.t,
        rows <> [] -> (Z.of_nat (List.length rows) < 4294967296)%Z ->
        bottlenecksOf rows = bottleneckRules (calculateAverageMetrics rows) /\
        is_zero (length_number rows) = false /\
        fst (bottlenecksTraced rows) = fst (calculateAverageMetricsTraced rows))
  /\ (forall rows : list Sample.t,
        (Z.of_nat (List.length rows) < 4294967296)%Z ->
        Forall (fun d => is_zero (divisor d) = false) (fst (bottlenecksTraced rows))).
Proof.
  intros H. rewrite identifyBottlenecks_run, H.
  split; [reflexivity |]. split; [reflexivity |]. split; [reflexivity |].
  split; [apply calculateAverageMetricsTraced_nil |]. split.
  - intros rows Hne Hlen. split; [| split].
    + destruct rows; [congruence | reflexivity].
    + apply length_number_nonzero; assumption.
    + destruct rows; [congruence | reflexivity].
  - intros [| r rows] Hlen; [constructor |].
    destruct (bottlenecksTraced_cons r rows) as [_ D].
    apply Forall_impl with (2 := D). intros d ->.
    apply length_number_nonzero; [discriminate | exact Hlen].
Qed.

Lemma identifyBottlenecks_no_samples_witness :
  identifyBottlenecks (steadyPool (numeric 450000000000000000 16) []) 7 []
    = ([] ++ [SelectRecentMetrics 7], Resolved [])
  /\ bottlenecksTraced [] = ([], [])
  /\ Forall (fun d => is_zero (divisor d) = false)
       (fst (bottlenecksTraced (flatWindow 500 60))).
Proof.
  pose proof (identifyBottlenecks_no_samples
                (steadyPool (numeric 450000000000000000 16) []) 7 [] eq_refl) as W.
  split; [exact (proj1 W) |]. split; [exact (proj1 (proj2 W)) |].
  apply (proj2 (proj2 (proj2 (proj2 (proj2 W)))) (flatWindow 500 60)). reflexivity.
Defined.

(** ** Thresholds *)

(** The rules on averages that sit exactly on a threshold. *)
Lemma bottleneckRules_at_thresholds (avg : AverageMetrics) :
  (code_review_time avg = 240 -> impactOf long_pr_review (bottleneckRules avg) = None) /\
  (cycle_time avg = 48 -> impactOf slow_ci (bottleneckRules avg) = None) /\
  (conflictRate avg = 0.15 -> impactOf merge_conflicts (bottleneckRules avg) = None) /\
  (code_review_time avg = 480 ->
     impactOf long_pr_review (bottleneckRules avg) = Some medium) /\
  (conflictRate avg = 0.25 ->
     impactOf merge_conflicts (bottleneckRules avg) = Some medium).
Proof.
  unfold impactOf. rewrite kinds_bottleneckRules.
  repeat split; intros H; rewrite H.
  - destruct (0.15 <? conflictRate avg), (48 <? cycle_time avg); reflexivity.
  - destruct (240 <? code_review_time avg), (0.15 <? conflictRate avg); reflexivity.
  - destruct (240 <? code_review_time avg), (48 <? cycle_time avg); reflexivity.
  - destruct (0.15 <? conflictRate avg), (48 <? cycle_time avg); reflexivity.
  - destruct (240 <? code_review_time avg), (48 <? cycle_time avg); reflexivity.
Qed.

(** C7.  Every comparison is strict.  Averages of exactly 240 minutes of
    review, exactly 48 hours of cycle time or a conflict rate of exactly 0.15
    do not trigger their rule; exactly 480 minutes of review or a conflict
    rate of exactly 0.25 trigger it with impact medium, not high.  This holds
    for the rules on any averages, and for the findings of every window whose
    means sit on a threshold. *)
Theorem thresholds_are_strict :
  (forall avg : AverageMetrics,
     (code_review_time avg = 240 -> impactOf long_pr_review (bottleneckRules avg) = None) /\
     (cycle_time avg = 48 -> impactOf slow_ci (bottleneckRules avg) = None) /\
     (conflictRate avg = 0.15 -> impactOf merge_conflicts (bottleneckRules avg) = None) /\
     (code_review_time avg = 480 ->
        impactOf long_pr_review (bottleneckRules avg) = Some medium) /\
     (conflictRate avg = 0.25 ->
        impactOf merge_conflicts (bottleneckRules avg) = Some medium)) /\
  (forall rows : list Sample.t,
     (code_review_time (calculateAverageMetrics rows) = 240 ->
        impactOf long_pr_review (bottlenecksOf rows) = None) /\
     (cycle_time (calculateAverageMetrics rows) = 48 ->
        impactOf slow_ci (bottlenecksOf rows) = None) /\
     (code_review_time (calculateAverageMetrics rows) = 480 ->
        impactOf long_pr_review (bottlenecksOf rows) = Some medium)).
Proof.
  split; [exact bottleneckRules_at_thresholds |].
  intros [| r rows].
  - split; [reflexivity |]. split; [reflexivity |].
    intros H. destruct calculateAverageMetrics_nil as (_ & N & _).
    rewrite H in N. discriminate N.
  - rewrite bottlenecksOf_cons.
    destruct (bottleneckRules_at_thresholds (calculateAverageMetrics (r :: rows)))
      as (H240 & H48 & _ & H480 & _).
    auto.
Qed.

Lemma thresholds_are_strict_witness :
  (impactOf long_pr_review (bottleneckRules (averagesWith 240 10 0.12)) = None /\
   impactOf slow_ci (bottleneckRules (averagesWith 300 48 0.12)) = None /\
   impactOf merge_conflicts (bottleneckRules (averagesWith 300 10 0.15)) = None /\
   impactOf long_pr_review (bottleneckRules (averagesWith 480 10 0.12)) = Some medium /\
   impactOf merge_conflicts (bottleneckRules (averagesWith 300 10 0.25)) = Some medium) /\
  (impactOf long_pr_review (bottlenecksOf (flatWindow 240 10)) = None /\
   impactOf slow_ci (bottlenecksOf (flatWindow 300 48)) = None /\
   impactOf long_pr_review (bottlenecksOf (flatWindow 480 10)) = Some medium).
Proof.
  pose proof (proj1 thresholds_are_strict) as R.
  pose proof (proj2 thresholds_are_strict) as W.
  split; [split; [| split; [| split; [| split]]] | split; [| split]].
  - apply (proj1 (R (averagesWith 240 10 0.12))). reflexivity.
  - apply (proj1 (proj2 (R (averagesWith 300 48 0.12)))). reflexivity.
  - apply (proj1 (proj2 (proj2 (R (averagesWith 300 10 0.15))))). reflexivity.
  - apply (proj1 (proj2 (proj2 (proj2 (R (averagesWith 480 10 0.12)))))). reflexivity.
  - apply (proj2 (proj2 (proj2 (proj2 (R (averagesWith 300 10 0.25)))))). reflexivity.
  - apply (proj1 (W (flatWindow 240 10))). vm_compute. reflexivity.
  - apply (proj1 (proj2 (W (flatWindow 300 48)))). vm_compute. reflexivity.
  - apply (proj2 (proj2 (W (flatWindow 480 10)))). vm_compute. reflexivity.
Defined.

(** The same at the level of the service: thirty samples of exactly 240
    minutes and 48 hours give no finding, thirty of 480 minutes a medium
    one. *)
Example flat_windows_at_the_thresholds :
  bottlenecksOf (flatWindow 240 48) = [] /\
  kinds (bottlenecksOf (flatWindow 480 48)) = [(long_pr_review, medium)].
Proof. vm_compute. split; reflexivity. Qed.

(** ** Order of the findings *)



(** The findings keep the order of the rules also where the costs would
    order them otherwise: here the last finding is the most expensive. *)
Example findings_not_sorted_by_cost :
  map type (bottleneckRules (averagesWith 500 600 0.30))
  = [long_pr_review; merge_conflicts; slow_ci] /\
  map (fun b => estimatedCost b <? 36000) (bottleneckRules (averagesWith 500 600 0.30))
  = [true; true; false].
Proof. vm_compute. split; reflexivity. Qed.

(** The conflict rate of a fetched window is the built-in 0.12: thirty
    samples of 500 minutes and 60 hours give the two findings whose rules
    read the samples. *)
Example scenario_D_window :
  List.length (flatWindow 500 60) = 30%nat /\
  code_review_time (calculateAverageMetrics (flatWindow 500 60)) = 500 /\
  cycle_time (calculateAverageMetrics (flatWindow 500 60)) = 60 /\
  conflictRate (calculateAverageMetrics (flatWindow 500 60)) = 0.12 /\
  kinds (bottlenecksOf (flatWindow 500 60)) = [(long_pr_review, high); (slow_ci, high)].
Proof. vm_compute. repeat split; reflexivity. Qed.

(** ** Costs *)

(** With twenty pull requests a week and 45 minutes per conflict, every rule
    that triggers estimates a cost that is not negative. *)
Lemma bottleneckRules_costs (avg : AverageMetrics) (b : EngineeringBottleneck) :
  prsPerWeek avg = 20 -> avgConflictResolution avg = 45 ->
  In b (bottleneckRules avg) -> (0 <=? estimatedCost b) = true.
Proof.
  intros Hp Ha Hin. unfold bottleneckRules in Hin. rewrite Hp, Ha in Hin.
  apply Binary64.leb_zero_of_nonneg.
  apply in_app_or in Hin. destruct Hin as [Hin | Hin].
  - destruct (240 <? code_review_time avg) eqn:T; [| contradiction].
    destruct Hin as [<- | []]. cbn [estimatedCost].
    repeat (apply Binary64.mul_nonneg; [| reflexivity]).
    apply Binary64.review_excess_nonneg, T.
  - apply in_app_or in Hin. destruct Hin as [Hin | Hin].
    + destruct (0.15 <? conflictRate avg) eqn:T; [| contradiction].
      destruct Hin as [<- | []]. cbn [estimatedCost].
      repeat (apply Binary64.mul_nonneg; [| reflexivity]).
      apply (Binary64.ltb_above_nonneg 0.15 _ 5404319552844595 (-55) eq_refl T).
    + destruct (48 <? cycle_time avg) eqn:T; [| contradiction].
      destruct Hin as [<- | []]. cbn [estimatedCost].
      repeat (apply Binary64.mul_nonneg; [| reflexivity]).
      apply Binary64.div_nonneg; [| reflexivity].
      apply Binary64.cycle_excess_nonneg, T.
Qed.

(** C9.  Every finding of every window has an estimated cost that is not
    negative.  So has every finding of the rules applied to any averages and
    any conflict rate, with the built-in twenty pull requests a week and 45
    minutes per conflict: above 240 minutes [(mean / 60 - 2) * 75 * 20] is
    not negative, above a rate of 0.15 the product is one of positive
    factors, and above 48 hours [((mean - 24) / 24) * 75 * 20] is not
    negative. *)
Theorem estimated_costs_nonneg :
  (forall (rows : list Sample.t) (b : EngineeringBottleneck),
     In b (bottlenecksOf rows) -> (0 <=? estimatedCost b) = true) /\
  (forall (avg : AverageMetrics) (b : EngineeringBottleneck),
     prsPerWeek avg = 20 -> avgConflictResolution avg = 45 ->
     In b (bottleneckRules avg) -> (0 <=? estimatedCost b) = true).
Proof.
  split.
  - intros [| r rows] b Hin; [contradiction |].
    rewrite bottlenecksOf_cons in Hin.
    apply (bottleneckRules_costs _ b) in Hin; [exact Hin | reflexivity | reflexivity].
  - intros avg b. apply bottleneckRules_costs.
Qed.

Lemma estimated_costs_nonneg_witness :
  (0 <=? estimatedCost (hd_bottleneck (bottlenecksOf (flatWindow 500 60)))) = true /\
  (0 <=? estimatedCost (hd_bottleneck (bottleneckRules (averagesWith 10 10 0.30)))) = true.
Proof.
  split.
  - apply (proj1 estimated_costs_nonneg (flatWindow 500 60)). vm_compute. left. reflexivity.
  - apply (proj2 estimated_costs_nonneg (averagesWith 10 10 0.30));
      [reflexivity | reflexivity |]. vm_compute. left. reflexivity.
Defined.

(** ** The conflict rate *)

(** C10.  The conflict rate of every window is the built-in 0.12, which is
    not above 0.15, so no window yields a [merge_conflicts] finding: neither
    the findings computed from any rows nor those any run of
    [identifyBottlenecks] resolves with. *)
Theorem merge_conflicts_never_found :
  (forall rows : list Sample.t, conflictRate (calculateAverageMetrics rows) = 0.12) /\
  (0.15 <? 0.12) = false /\
  (forall (rows : list Sample.t) (b : EngineeringBottleneck),
     In b (bottlenecksOf rows) -> type b <> merge_conflicts) /\
  (forall (Error : Type) (pool : Pool Error) (repositoryId : Js.number)
          (log log' : list Query) (findings : list EngineeringBottleneck),
     identifyBottlenecks pool repositoryId log = (log', Resolved findings) ->
     forall b, In b findings -> type b <> merge_conflicts).
Proof.
  assert (pure : forall (rows : list Sample.t) (b : EngineeringBottleneck),
             In b (bottlenecksOf rows) -> type b <> merge_conflicts).
  { intros [| r rows] b Hin; [contradiction |].
    rewrite bottlenecksOf_cons in Hin.
    apply (in_map type) in Hin.
    rewrite types_bottleneckRules in Hin.
    destruct (average_placeholders (r :: rows)) as (_ & Hk & _). rewrite Hk in Hin.
    change (0.15 <? 0.12) with false in Hin. unfold ruleOrder in Hin.
    destruct (240 <? _), (48 <? _); cbn in Hin; intuition congruence. }
  split; [reflexivity |]. split; [reflexivity |]. split; [exact pure |].
  intros Error pool repositoryId log log' findings Hrun b.
  rewrite identifyBottlenecks_run in Hrun.
  destruct (recentMetricRows pool repositoryId) as [rows | e]; [| discriminate].
  injection Hrun as _ <-. apply pure.
Qed.

Lemma merge_conflicts_never_found_witness :
  type (hd_bottleneck (bottlenecksOf (flatWindow 500 60))) <> merge_conflicts.
Proof.
  apply (proj1 (proj2 (proj2 merge_conflicts_never_found)) (flatWindow 500 60)).
  vm_compute. left. reflexivity.
Defined.


(** * More facts about binary64 arithmetic *)

Module Signs.
Local Open Scope Z_scope.

Lemma sf_signed_false (x : spec_float) : sf_signed false x = sf_nonneg x.
Proof. destruct x as [s | [] | | [] m e]; reflexivity. Qed.

(** Rounding a mantissa that is not negative keeps the sign it is given. *)
Lemma binary_round_aux_signed (s : bool) (m e : Z) (l : location) :
  0 <= m -> sf_signed s (binary_round_aux prec emax s m e l) = true.
Proof.
  intros Hm. unfold binary_round_aux.
  destruct (Binary64.shr_fexp_spec m e l Hm) as [H1 _].
  destruct (shr_fexp prec emax m e l) as [mrs1 e1]. cbn [fst] in H1.
  assert (H1' : 0 <= shr_m mrs1).
  { rewrite H1. apply Z.div_pos; [exact Hm | apply Z.pow_pos_nonneg; lia]. }
  pose proof (Binary64.round_nearest_even_ge (shr_m mrs1) (loc_of_shr_record mrs1)) as Hr.
  set (m2 := round_nearest_even (shr_m mrs1) (loc_of_shr_record mrs1)) in *.
  destruct (Binary64.shr_fexp_spec m2 e1 loc_Exact) as [H2 _]; [lia |].
  destruct (shr_fexp prec emax m2 e1 loc_Exact) as [mrs2 e2]. cbn [fst] in H2.
  assert (H2' : 0 <= shr_m mrs2).
  { rewrite H2. apply Z.div_pos; [lia | apply Z.pow_pos_nonneg; lia]. }
  destruct (shr_m mrs2) as [| p | p]; try lia.
  - reflexivity.
  - destruct (e2 <=? emax - prec); cbn [sf_signed]; apply eqb_reflx.
Qed.

Lemma binary_round_signed (s : bool) (m : positive) (e : Z) :
  sf_signed s (binary_round prec emax s m e) = true.
Proof.
  unfold binary_round. destruct (shl_align m e _) as [mz ez].
  apply binary_round_aux_signed. lia.
Qed.

(** An integer is normalized to a number of its own sign. *)
Lemma binary_normalize_signed (z e : Z) :
  sf_signed (z <? 0) (binary_normalize prec emax z e false) = true.
Proof.
  destruct z as [| p | p]; cbn [binary_normalize].
  - reflexivity.
  - apply (binary_round_signed false).
  - apply (binary_round_signed true).
Qed.

(** The difference of two positive numbers is never [NaN], and carries the
    sign of the exact difference. *)
Lemma SFsub_signed (mx my : positive) (ex ey : Z) :
  let d := Zpos mx * 2 ^ (ex - Z.min ex ey) - Zpos my * 2 ^ (ey - Z.min ex ey) in
  sf_signed (d <? 0) (SF64sub (S754_finite false mx ex) (S754_finite false my ey)) = true.
Proof.
  intros d. unfold SF64sub, SFsub. cbn [cond_Zopp].
  rewrite !Binary64.shl_align_fst by lia. apply binary_normalize_signed.
Qed.

(** The sum of two numbers that are not negative is not negative. *)
Lemma SFadd_nonneg (x y : spec_float) :
  sf_nonneg x = true -> sf_nonneg y = true -> sf_nonneg (SF64add x y) = true.
Proof.
  destruct x as [sx | [] | | [] mx ex]; try discriminate;
    destruct y as [sy | [] | | [] my ey]; try discriminate; intros _ _;
    unfold SF64add; cbn [SFadd cond_Zopp]; try reflexivity.
  - destruct sx, sy; reflexivity.
  - rewrite <- sf_signed_false.
    pose proof (binary_normalize_signed
      (Zpos (fst (shl_align mx ex (Z.min ex ey))) + Zpos (fst (shl_align my ey (Z.min ex ey))))
      (Z.min ex ey)) as H.
    replace (_ <? 0) with false in H by (symmetry; apply Z.ltb_ge; lia).
    exact H.
Qed.

Local Open Scope float_scope.

Lemma add_nonneg (x y : float) :
  sf_nonneg (Prim2SF x) = true -> sf_nonneg (Prim2SF y) = true ->
  sf_nonneg (Prim2SF (x + y)) = true.
Proof. rewrite add_spec. apply SFadd_nonneg. Qed.

Lemma nonneg_of_leb_zero (x : float) :
  (0 <=? x) = true -> sf_nonneg (Prim2SF x) = true.
Proof.
  rewrite leb_spec. change (Prim2SF 0) with (S754_zero false).
  destruct (Prim2SF x) as [s | [] | | [] m e]; try reflexivity; discriminate.
Qed.

Lemma pos_finite_of_ltb_zero (x : float) :
  (0 <? x) = true -> is_finite x = true -> sf_pos_finite (Prim2SF x) = true.
Proof.
  intros Hp Hf. apply Binary64.is_finite_spec in Hf.
  rewrite ltb_spec in Hp. change (Prim2SF 0) with (S754_zero false) in Hp.
  destruct (Prim2SF x) as [s | [] | | [] m e]; try reflexivity; discriminate.
Qed.

Lemma is_nan_spec (x : float) :
  is_nan x = match Prim2SF x with S754_nan => true | _ => false end.
Proof.
  unfold is_nan. rewrite eqb_spec.
  destruct (Prim2SF x) as [s | [] | | [] m e]; try reflexivity; cbn.
  - rewrite Pos.compare_cont_refl. destruct (e ?= e)%Z eqn:E; try reflexivity;
      rewrite Z.compare_refl in E; discriminate.
  - rewrite Pos.compare_cont_refl. destruct (e ?= e)%Z eqn:E; try reflexivity;
      rewrite Z.compare_refl in E; discriminate.
Qed.

(** A number that is not falsy, not negative and finite is positive. *)
Lemma pos_finite_of_truthy (x : float) :
  Js.falsy x = false -> sf_nonneg (Prim2SF x) = true -> sf_finite (Prim2SF x) = true ->
  sf_pos_finite (Prim2SF x) = true.
Proof.
  unfold Js.falsy. rewrite Binary64.is_zero_spec. intros T N F.
  apply orb_false_elim in T. destruct T as [T _].
  destruct (Prim2SF x) as [s | [] | | [] m e]; try reflexivity; discriminate.
Qed.

End Signs.

Module Floors.
Local Open Scope Z_scope.

(** The difference of two finite numbers of any sign is never [NaN], and
    carries the sign of the exact difference. *)
Lemma SFsub_finite_signed (sx sy : bool) (mx my : positive) (ex ey : Z) :
  let d := cond_Zopp sx (Zpos mx * 2 ^ (ex - Z.min ex ey))
           - cond_Zopp sy (Zpos my * 2 ^ (ey - Z.min ex ey)) in
  sf_signed (d <? 0) (SF64sub (S754_finite sx mx ex) (S754_finite sy my ey)) = true.
Proof.
  intros d. unfold SF64sub, SFsub.
  rewrite !Binary64.shl_align_fst by lia. apply Signs.binary_normalize_signed.
Qed.

(** What [c <= x] says of [x] when [c] is positive and finite. *)
Lemma SFleb_above (mc : positive) (ec : Z) (x : spec_float) :
  SFleb (S754_finite false mc ec) x = true ->
  x = S754_infinity false \/
  exists m e, x = S754_finite false m e /\ (ec < e \/ (e = ec /\ Zpos mc <= Zpos m)).
Proof.
  unfold SFleb.
  destruct x as [s | [] | | [] m e]; cbn [SFcompare]; try discriminate.
  - left. reflexivity.
  - intros H. right. exists m, e. split; [reflexivity |].
    destruct (Z.compare_spec ec e) as [E | E | E]; try discriminate.
    + right. split; [lia |].
      change (Pos.compare_cont Eq mc m) with (Pos.compare mc m) in H.
      destruct (Pos.compare_spec mc m); try discriminate; lia.
    + left. exact E.
Qed.

Lemma SFmul_nonneg_finite (x y : spec_float) :
  sf_nonneg x = true -> sf_finite x = true ->
  sf_nonneg y = true -> sf_finite y = true ->
  sf_nonneg (SF64mul x y) = true.
Proof.
  destruct x as [sx | [] | | [] mx ex]; try discriminate;
    destruct y as [sy | [] | | [] my ey]; try discriminate; intros _ _ _ _;
    unfold SF64mul; cbn [SFmul xorb]; try reflexivity.
  apply Binary64.binary_round_aux_nonneg. lia.
Qed.

Lemma SFldexp_nonneg (x : spec_float) (e : Z) :
  sf_nonneg x = true -> sf_nonneg (SFldexp prec emax x e) = true.
Proof.
  destruct x as [s | [] | | [] m ex]; try discriminate; intros _; cbn [SFldexp];
    try reflexivity.
  apply Binary64.binary_round_nonneg.
Qed.

Local Open Scope float_scope.

(** Converting a specification value that is not negative gives a float
    that is not negative. *)
Lemma SF2Prim_nonneg (x : spec_float) :
  sf_nonneg x = true -> sf_nonneg (Prim2SF (SF2Prim x)) = true.
Proof.
  destruct x as [[] | [] | | [] m e]; try discriminate; intros _; try reflexivity.
  cbn [SF2Prim]. cbv zeta. rewrite Z_ldexp_spec. apply SFldexp_nonneg.
  rewrite of_uint63_spec, <- Signs.sf_signed_false.
  pose proof (Signs.binary_normalize_signed (Uint63.to_Z (Uint63.of_Z (Zpos m))) 0) as H.
  replace (_ <? 0)%Z with false in H; [exact H |].
  symmetry. apply Z.ltb_ge. apply Uint63.to_Z_bounded.
Qed.

Lemma of_Z_nonneg (z : Z) : (0 <= z)%Z -> sf_nonneg (Prim2SF (Js.of_Z z)) = true.
Proof.
  intros Hz. unfold Js.of_Z. apply SF2Prim_nonneg.
  destruct z as [| p | p]; [reflexivity | | lia].
  apply Binary64.binary_round_nonneg.
Qed.

(** [Math.floor] of a number that is not negative is not negative. *)
Lemma Math_floor_nonneg (x : float) :
  sf_nonneg (Prim2SF x) = true -> sf_nonneg (Prim2SF (Js.Math_floor x)) = true.
Proof.
  intros H. unfold Js.Math_floor.
  destruct (Prim2SF x) as [s | [] | | [] m e] eqn:E; try discriminate;
    try (rewrite E; reflexivity).
  assert (Hz : (0 <= Js.floorZ false m e)%Z).
  { unfold Js.floorZ. cbn [cond_Zopp]. destruct e as [| p | p].
    - lia.
    - apply Z.mul_nonneg_nonneg; [lia | apply Z.pow_nonneg; lia].
    - apply Z.div_pos; [lia | apply Z.pow_pos_nonneg; lia]. }
  destruct (Js.floorZ false m e) as [| z | z] eqn:F; [reflexivity | | lia].
  apply of_Z_nonneg. lia.
Qed.

(** [Math.max(0, y)] is [0] for a [y] that is zero or negative. *)
Lemma Math_max_zero_nonpos (y : float) :
  sf_signed true (Prim2SF y) = true -> Js.Math_max 0 y = 0.
Proof.
  intros H. unfold Js.Math_max.
  rewrite (Signs.is_nan_spec y), ltb_spec.
  change (is_nan 0) with false. change (Prim2SF 0) with (S754_zero false).
  destruct (Prim2SF y) as [s | [] | | [] m e]; try discriminate; cbn;
    destruct (y <? 0); reflexivity.
Qed.

(** [Math.max(0, y)] is never negative when [y] is a number. *)
Lemma Math_max_zero_nonneg (y : float) :
  is_nan y = false -> sf_nonneg (Prim2SF (Js.Math_max 0 y)) = true.
Proof.
  intros N. unfold Js.Math_max. rewrite N. change (is_nan 0) with false. cbn [orb].
  destruct (0 <? y) eqn:P.
  - rewrite ltb_spec in P. change (Prim2SF 0) with (S754_zero false) in P.
    destruct (Prim2SF y) as [s | [] | | [] m e]; try reflexivity; discriminate.
  - destruct (y <? 0); reflexivity.
Qed.

(** Subtracting a number that is not falsy from 24 gives a number. *)
Lemma baseline_minus_truthy (a : float) :
  Js.falsy a = false -> is_nan (24 - a) = false.
Proof.
  unfold Js.falsy. rewrite (Signs.is_nan_spec a), (Signs.is_nan_spec (24 - a)), sub_spec.
  change (Prim2SF 24) with (S754_finite false 6755399441055744 (-48)).
  intros T. apply orb_false_elim in T. destruct T as [_ T].
  destruct (Prim2SF a) as [s | s | | s m e]; try discriminate; try reflexivity.
  pose proof (SFsub_finite_signed false s 6755399441055744 m (-48) e) as H. cbv zeta in H.
  destruct (SF64sub _ _); try reflexivity. discriminate H.
Qed.

End Floors.

(** * The numbers that decimal texts denote *)

Module Decimals.
Local Open Scope float_scope.

Lemma ldexp_of_pos_nonneg (m : positive) (e : Z) :
  sf_nonneg (Prim2SF (Z.ldexp (of_uint63 (Uint63.of_Z (Zpos m))) e)) = true.
Proof.
  rewrite Z_ldexp_spec. apply Floors.SFldexp_nonneg.
  rewrite of_uint63_spec, <- Signs.sf_signed_false.
  pose proof (Signs.binary_normalize_signed (Uint63.to_Z (Uint63.of_Z (Zpos m))) 0) as H.
  replace (_ <? 0)%Z with false in H; [exact H |].
  symmetry. apply Z.ltb_ge. apply Uint63.to_Z_bounded.
Qed.

(** Converting a specification value keeps its sign and never makes a
    [NaN] of a number. *)
Lemma SF2Prim_signed (s : bool) (x : spec_float) :
  sf_signed s x = true -> sf_signed s (Prim2SF (SF2Prim x)) = true.
Proof.
  destruct x as [[] | [] | | b m e]; try discriminate; intros H; try exact H.
  cbn [sf_signed] in H. apply eqb_prop in H. subst b.
  cbn [SF2Prim]. cbv zeta.
  pose proof (ldexp_of_pos_nonneg m e) as N.
  destruct s.
  - rewrite opp_spec.
    destruct (Prim2SF (Z.ldexp _ e)) as [z | [] | | [] m' e']; try discriminate N;
      reflexivity.
  - rewrite Signs.sf_signed_false. exact N.
Qed.

(** A decimal text denotes a number of its own sign: never [NaN]. *)
Lemma decimalValue_signed (t : Decimal) :
  sf_signed (negative t) (Prim2SF (decimalValue t)) = true.
Proof.
  unfold decimalValue. destruct (digits t) as [| m].
  - destruct (negative t); reflexivity.
  - apply SF2Prim_signed. unfold SF64div. cbn [SFdiv].
    pose proof (Binary64.SFdiv_core_nonneg m (pow10 (scale t)) 0 0) as Hq.
    destruct (SFdiv_core_binary prec emax (Zpos m) 0 (Zpos (pow10 (scale t))) 0)
      as [[mz ez] lz].
    rewrite xorb_false_r. apply Signs.binary_round_aux_signed. exact Hq.
Qed.

Lemma decimalValue_number (t : Decimal) : is_nan (decimalValue t) = false.
Proof.
  rewrite Signs.is_nan_spec. pose proof (decimalValue_signed t) as H.
  destruct (Prim2SF (decimalValue t)); try reflexivity. discriminate H.
Qed.

(** Subtracting a number from 24 gives a number. *)
Lemma baseline_minus_number (a : float) : is_nan a = false -> is_nan (24 - a) = false.
Proof.
  rewrite (Signs.is_nan_spec a), (Signs.is_nan_spec (24 - a)), sub_spec.
  change (Prim2SF 24) with (S754_finite false 6755399441055744 (-48)).
  intros T.
  destruct (Prim2SF a) as [s | s | | s m e]; try discriminate; try reflexivity.
  pose proof (Floors.SFsub_finite_signed false s 6755399441055744 m (-48) e) as H.
  cbv zeta in H.
  destruct (SF64sub _ _); try reflexivity. discriminate H.
Qed.

End Decimals.

(** * Further properties of the savings *)

(** The cycle time that [calculateCICDSavings] works with is a number: a
    truthy number, the number a text denotes, or the baseline. *)
Lemma actualCycleTime_number (v : Aggregate) :
  is_nan (toNumber (or_default v 24)) = false.
Proof.
  unfold or_default, truthy. destruct v as [| | x | t]; try reflexivity.
  - destruct (Js.falsy x) eqn:T; cbn [negb toNumber]; [reflexivity |].
    unfold Js.falsy in T. apply orb_false_elim in T. apply T.
  - apply Decimals.decimalValue_number.
Qed.

Lemma calculateCICDSavings_sign (engineeringData : EngineeringData) :
  sf_nonneg (Prim2SF (calculateCICDSavings engineeringData)) = true.
Proof.
  unfold calculateCICDSavings. cbv zeta.
  apply Binary64.mul_nonneg; [| reflexivity].
  apply Floors.Math_max_zero_nonneg, Decimals.baseline_minus_number,
    actualCycleTime_number.
Qed.

(** X1.  Whatever the engineering row holds (a number, a text, [NULL],
    nothing, an infinity or [NaN]), the CI/CD hours saved are a number that
    is not negative. *)
Theorem calculateCICDSavings_never_negative (engineeringData : EngineeringData) :
  (0 <=? calculateCICDSavings engineeringData) = true /\
  is_nan (calculateCICDSavings engineeringData) = false.
Proof.
  pose proof (calculateCICDSavings_sign engineeringData) as N.
  split; [apply Binary64.leb_zero_of_nonneg, N |].
  rewrite Signs.is_nan_spec.
  destruct (Prim2SF (calculateCICDSavings engineeringData)); try reflexivity; discriminate N.
Qed.

(** X2.  An average cycle time at or above the baseline of 24 hours, however
    large, gives no CI/CD saving at all: exactly [0], never a negative
    figure. *)
Theorem calculateCICDSavings_no_improvement (engineeringData : EngineeringData)
    (avg : Js.number) :
  delivers (avg_cycle_time engineeringData) avg -> (24 <=? avg) = true ->
  calculateCICDSavings engineeringData = 0.
Proof.
  intros Hv Hge. unfold calculateCICDSavings. cbv zeta.
  rewrite leb_spec in Hge.
  change (Prim2SF 24) with (S754_finite false 6755399441055744 (-48)) in Hge.
  assert (T : Js.falsy avg = false).
  { unfold Js.falsy. rewrite Binary64.is_zero_spec, Signs.is_nan_spec.
    destruct (Floors.SFleb_above _ _ _ Hge) as [-> | (m & e & -> & _)]; reflexivity. }
  assert (E : toNumber (or_default (avg_cycle_time engineeringData) 24) = avg).
  { unfold or_default, truthy. destruct Hv as [-> | (t & -> & Ht)]; [| exact Ht].
    rewrite T. reflexivity. }
  rewrite E.
  rewrite Floors.Math_max_zero_nonpos; [reflexivity |].
  rewrite sub_spec. change (Prim2SF 24) with (S754_finite false 6755399441055744 (-48)).
  destruct (Floors.SFleb_above _ _ _ Hge) as [Hx | (m & e & Hx & Hcmp)].
  - rewrite Hx. reflexivity.
  - pose proof (Prim2SF_valid avg) as V. rewrite Hx in V. rewrite Hx.
    pose proof (Floors.SFsub_finite_signed false false 6755399441055744 m (-48) e) as S.
    cbv zeta in S. cbn [cond_Zopp] in S.
    assert (D : (6755399441055744 * 2 ^ (-48 - Z.min (-48) e)
                 - Zpos m * 2 ^ (e - Z.min (-48) e) <= 0)%Z).
    { rewrite Z.min_l by lia. replace (-48 - -48)%Z with 0%Z by lia. rewrite Z.pow_0_r.
      destruct Hcmp as [Hlt | [-> Hle]].
      - destruct (Binary64.valid_normal _ _ _ V) as [_ B];
          [unfold SpecFloat.emin, prec, emax; lia |].
        assert (2 ^ 1 <= 2 ^ (e - -48))%Z by (apply Z.pow_le_mono_r; lia).
        change (2 ^ 52)%Z with 4503599627370496%Z in B. change (2 ^ 1)%Z with 2%Z in *. nia.
      - replace (-48 - -48)%Z with 0%Z by lia. rewrite Z.pow_0_r. lia. }
    destruct (Z.ltb_spec (6755399441055744 * 2 ^ (-48 - Z.min (-48) e)
                          - Zpos m * 2 ^ (e - Z.min (-48) e)) 0) as [L | G].
    + exact S.
    + clear S. unfold SF64sub, SFsub. cbn [cond_Zopp].
      rewrite !Binary64.shl_align_fst by lia.
      replace (_ - _)%Z with 0%Z by lia. reflexivity.
Qed.

Lemma calculateCICDSavings_no_improvement_witness :
  calculateCICDSavings {| avg_cycle_time := numeric 720000000000000000 16;
                          avg_lead_time := ANull;
                          avg_deploy_freq := ANull |} = 0 /\
  calculateCICDSavings {| avg_cycle_time := ANum 72; avg_lead_time := ANull;
                          avg_deploy_freq := ANull |} = 0.
Proof.
  split.
  - apply (calculateCICDSavings_no_improvement _ 72); [| reflexivity].
    right. eexists. split; [reflexivity |]. vm_compute. reflexivity.
  - apply (calculateCICDSavings_no_improvement _ 72); [| reflexivity].
    left. reflexivity.
Defined.

(** The resolution time the report works with is positive and finite
    whenever the supplied average is finite and not negative. *)
Lemma avgResolutionTime_positive (minutes : Js.number) :
  (0 <=? minutes) = true -> is_finite minutes = true ->
  sf_pos_finite (Prim2SF (or_number (JNum minutes) 45)) = true.
Proof.
  intros Hp Hf. unfold or_number. destruct (Js.falsy minutes) eqn:T; [reflexivity |].
  apply Signs.pos_finite_of_truthy;
    [exact T | apply Signs.nonneg_of_leb_zero, Hp | apply Binary64.is_finite_spec, Hf].
Qed.

(** X3.  For summaries that are finite and not negative and a window that
    is positive and finite, no figure of the report is negative (or [NaN]):
    overflow can only lead to [+Infinity]. *)
Theorem roiMetrics_never_negative (conflictData : ConflictData)
    (predictionData : PredictionData) (engineeringData : EngineeringData)
    (timeframeDays : Js.number) :
  (0 <=? totalPredictions predictionData) = true ->
  is_finite (totalPredictions predictionData) = true ->
  (0 <=? accuracyRate predictionData) = true ->
  is_finite (accuracyRate predictionData) = true ->
  (0 <=? preventedFailures predictionData) = true ->
  (0 <=? avgResolutionMinutes conflictData) = true ->
  is_finite (avgResolutionMinutes conflictData) = true ->
  (0 <? timeframeDays) = true -> is_finite timeframeDays = true ->
  let r := roiMetrics conflictData predictionData engineeringData timeframeDays in
  (0 <=? totalConflictsAvoided r) = true /\
  (0 <=? avgConflictResolutionTime r) = true /\
  (0 <=? timesSaved r) = true /\
  (0 <=? costSavings r) = true /\
  (0 <=? developerHourlyCost r) = true /\
  (0 <=? preventedBuildFailures r) = true /\
  (0 <=? cicdTimeSaved r) = true /\
  (0 <=? totalROI r) = true /\
  (0 <=? projectedAnnualSavings r) = true.
Proof.
  intros Hn Hnf Ha Haf Hp Hm Hmf Hd Hdf r. subst r. unfold roiMetrics. cbv zeta.
  cbn [totalConflictsAvoided avgConflictResolutionTime timesSaved costSavings
       developerHourlyCost preventedBuildFailures cicdTimeSaved totalROI
       projectedAnnualSavings].
  set (avoided := Js.Math_floor (totalPredictions predictionData * accuracyRate predictionData)).
  set (minutes := or_number (JNum (avgResolutionMinutes conflictData)) 45).
  assert (A : sf_nonneg (Prim2SF avoided) = true).
  { apply Floors.Math_floor_nonneg. rewrite mul_spec.
    apply Floors.SFmul_nonneg_finite;
      auto using Signs.nonneg_of_leb_zero, Binary64.is_finite_spec. }
  assert (M : sf_pos_finite (Prim2SF minutes) = true)
    by (apply avgResolutionTime_positive; assumption).
  assert (T : sf_nonneg (Prim2SF (avoided * minutes / 60)) = true).
  { apply Binary64.div_nonneg; [| reflexivity]. apply Binary64.mul_nonneg; assumption. }
  assert (C : sf_nonneg (Prim2SF (avoided * minutes / 60 * DEFAULT_HOURLY_COST)) = true)
    by (apply Binary64.mul_nonneg; [exact T | reflexivity]).
  assert (S : sf_nonneg (Prim2SF (calculateCICDSavings engineeringData)) = true)
    by apply calculateCICDSavings_sign.
  assert (R : sf_nonneg (Prim2SF (avoided * minutes / 60 * DEFAULT_HOURLY_COST
                + calculateCICDSavings engineeringData * (DEFAULT_HOURLY_COST / 2))) = true).
  { apply Signs.add_nonneg; [exact C |]. apply Binary64.mul_nonneg; [exact S | reflexivity]. }
  repeat match goal with |- _ /\ _ => split end;
    try (apply Binary64.leb_zero_of_nonneg; assumption).
  - apply Binary64.leb_zero_of_nonneg.
    destruct (Prim2SF minutes) as [| | | [] m e]; try discriminate M. reflexivity.
  - reflexivity.
  - unfold or_number. destruct (Js.falsy (preventedFailures predictionData));
      [reflexivity | exact Hp].
  - apply Binary64.leb_zero_of_nonneg, Binary64.mul_nonneg; [| reflexivity].
    apply Binary64.div_nonneg; [exact R |].
    apply Signs.pos_finite_of_ltb_zero; assumption.
Qed.

Lemma roiMetrics_never_negative_witness :
  let r := roiMetrics scenarioA_conflicts scenarioA_predictions zeroCycleTime 30 in
  (0 <=? totalConflictsAvoided r) = true /\
  (0 <=? avgConflictResolutionTime r) = true /\
  (0 <=? timesSaved r) = true /\
  (0 <=? costSavings r) = true /\
  (0 <=? developerHourlyCost r) = true /\
  (0 <=? preventedBuildFailures r) = true /\
  (0 <=? cicdTimeSaved r) = true /\
  (0 <=? totalROI r) = true /\
  (0 <=? projectedAnnualSavings r) = true.
Proof.
  apply (roiMetrics_never_negative scenarioA_conflicts scenarioA_predictions zeroCycleTime 30);
    reflexivity.
Defined.

(** X4.  A window without data does not make [calculateROI] fail.  When the
    three queries resolve with no row, or with aggregates over no record (a
    prediction count of 0 or none, [NULL] averages), the three queries are
    sent and the promise resolves with a report of zero savings that carries
    the default resolution time of 45 minutes and the hourly cost of 75,
    for every window that is not falsy. *)
Theorem calculateROI_without_data {Error : Type} (pool : Pool Error)
    (now repositoryId days : Js.number) (log : list Query)
    (conflicts : list ConflictRow) (predictions : list PredictionRow)
    (engineering : list EngineeringData) :
  let startDate := {| today := now; daysBack := days |} in
  conflictRows pool repositoryId startDate = Resolved conflicts ->
  predictionRows pool repositoryId startDate = Resolved predictions ->
  engineeringRows pool repositoryId startDate = Resolved engineering ->
  absent (first_field AUndefined avg_resolution_minutes conflicts) = true ->
  parseInt_or_zero (first_field None total_predictions predictions) = 0 ->
  absent (first_field AUndefined accuracy_rate predictions) = true ->
  absent (first_field AUndefined avg_cycle_time engineering) = true ->
  Js.falsy days = false ->
  exists r,
    calculateROI pool now repositoryId (Some days) log =
      (log ++ [SelectConflicts repositoryId startDate;
               SelectPredictions repositoryId startDate;
               SelectEngineering repositoryId startDate], Resolved r) /\
    totalConflictsAvoided r = 0 /\ avgConflictResolutionTime r = 45 /\
    timesSaved r = 0 /\ costSavings r = 0 /\ developerHourlyCost r = 75 /\
    cicdTimeSaved r = 0 /\ totalROI r = 0 /\
    (projectedAnnualSavings r =? 0) = true.
Proof.
  intros startDate Hc Hp He Ac Np Ap Ae Td.
  cbv [calculateROI try_catch bind getConflictMetrics getPredictionMetrics
       getEngineeringMetrics await_query ret throw].
  fold startDate. rewrite Hc, Hp, He. eexists. split.
  { rewrite <- !app_assoc. reflexivity. }
  unfold roiMetrics, calculateCICDSavings. cbv zeta.
  cbn [totalConflictsAvoided avgConflictResolutionTime timesSaved costSavings
       developerHourlyCost cicdTimeSaved totalROI projectedAnnualSavings
       totalPredictions accuracyRate avgResolutionMinutes].
  rewrite Np.
  assert (Ec : parseFloat_or (first_field AUndefined avg_resolution_minutes conflicts) 45
               = 45)
    by (destruct (first_field AUndefined avg_resolution_minutes conflicts);
        try reflexivity; discriminate Ac).
  assert (Ep : parseFloat_or (first_field AUndefined accuracy_rate predictions) 0.78 = 0.78)
    by (destruct (first_field AUndefined accuracy_rate predictions);
        try reflexivity; discriminate Ap).
  assert (Ee : toNumber (or_default (avg_cycle_time match engineering with
                                                    | r :: _ => r
                                                    | [] => emptyObject
                                                    end) 24) = 24).
  { destruct engineering as [| row rest]; [reflexivity |]. cbn [first_field] in Ae.
    destruct (avg_cycle_time row); try reflexivity; discriminate Ae. }
  rewrite Ec, Ep, Ee.
  repeat match goal with |- _ /\ _ => split end; try reflexivity.
  apply Binary64.eqb_zero_of_zero.
  assert (Z : sf_zero (Prim2SF (0 / days)) = true).
  { rewrite div_spec. change (Prim2SF 0) with (S754_zero false).
    unfold Js.falsy in Td. rewrite Binary64.is_zero_spec, Signs.is_nan_spec in Td.
    destruct (Prim2SF days) as [s | s | | s m e]; try reflexivity; discriminate Td. }
  change (Js.Math_floor (0 * 0.78) * 45 / 60 * DEFAULT_HOURLY_COST
          + Js.Math_max 0 (24 - 24) * 4 * (DEFAULT_HOURLY_COST / 2)) with 0.
  apply Binary64.mul_zero_finite; [exact Z | reflexivity].
Qed.

Lemma calculateROI_without_data_witness :
  exists r,
    calculateROI emptyRepositoryPool 1700000000000 7 (Some 30) [] =
      ([] ++ [SelectConflicts 7 {| today := 1700000000000; daysBack := 30 |};
              SelectPredictions 7 {| today := 1700000000000; daysBack := 30 |};
              SelectEngineering 7 {| today := 1700000000000; daysBack := 30 |}],
       Resolved r) /\
    totalConflictsAvoided r = 0 /\ avgConflictResolutionTime r = 45 /\
    timesSaved r = 0 /\ costSavings r = 0 /\ developerHourlyCost r = 75 /\
    cicdTimeSaved r = 0 /\ totalROI r = 0 /\
    (projectedAnnualSavings r =? 0) = true.
Proof.
  apply (calculateROI_without_data emptyRepositoryPool 1700000000000 7 30 []
           [ {| total_conflicts := Some 0%N; avg_resolution_minutes := ANull;
                resolution_rate := ANull |} ]
           [ {| total_predictions := Some 0%N; accuracy_rate := ANull;
                prevented_failures := None |} ]
           []); reflexivity.
Defined.

(** * Further properties of the bottleneck detector *)

(** X5.  [identifyBottlenecks] sends exactly one query, whatever the pool
    answers.  It is rejected exactly when that query is, with the error of
    the pool unchanged, and resolves with the findings for the fetched rows
    otherwise. *)
Theorem identifyBottlenecks_settles {Error : Type} (pool : Pool Error)
    (repositoryId : Js.number) (log : list Query) :
  fst (identifyBottlenecks pool repositoryId log) = log ++ [SelectRecentMetrics repositoryId] /\
  (forall e,
     snd (identifyBottlenecks pool repositoryId log) = Rejected e
     <-> recentMetricRows pool repositoryId = Rejected e) /\
  (forall rows,
     recentMetricRows pool repositoryId = Resolved rows ->
     snd (identifyBottlenecks pool repositoryId log) = Resolved (bottlenecksOf rows)).
Proof.
  rewrite identifyBottlenecks_run. cbn [fst snd].
  split; [reflexivity |]. split.
  - intros e. destruct (recentMetricRows pool repositoryId) as [rows | e'];
      split; intros H; try discriminate H; congruence.
  - intros rows ->. reflexivity.
Qed.

(** X6.  Of the four kinds and three impacts that a finding may carry, the
    detector only ever reports [long_pr_review] and [slow_ci], with impact
    [high] or [medium]: never [delayed_deployments], never [low].  It
    reports at most two findings, no kind twice, and [slow_ci] always as
    [high]. *)
Theorem bottlenecksOf_shape (rows : list Sample.t) :
  (List.length (bottlenecksOf rows) <= 2)%nat /\
  NoDup (map type (bottlenecksOf rows)) /\
  (forall b, In b (bottlenecksOf rows) ->
     (type b = long_pr_review \/ type b = slow_ci) /\
     impact b <> low /\
     (type b = slow_ci -> impact b = high)).
Proof.
  assert (K : exists review ci : bool,
             kinds (bottlenecksOf rows)
             = (if review then [(long_pr_review, if ci then high else medium)] else [])
               ++ nil
               ++ (if 48 <? cycle_time (calculateAverageMetrics rows)
                   then [(slow_ci, high)] else [])).
  { destruct rows as [| r rows].
    - exists false, false. reflexivity.
    - exists (240 <? code_review_time (calculateAverageMetrics (r :: rows))),
        (480 <? code_review_time (calculateAverageMetrics (r :: rows))).
      rewrite bottlenecksOf_cons, kinds_bottleneckRules.
      destruct (average_placeholders (r :: rows)) as (_ & -> & _). reflexivity. }
  destruct K as (review & ci & K).
  split; [| split].
  - rewrite <- (length_map (fun b => (type b, impact b))). fold (kinds (bottlenecksOf rows)).
    rewrite K. destruct review, (48 <? _); cbn; auto.
  - rewrite <- kinds_types, K.
    destruct review, (48 <? _); cbn; repeat constructor; cbn; intuition discriminate.
  - intros b Hin. apply (in_map (fun b => (type b, impact b))) in Hin.
    fold (kinds (bottlenecksOf rows)) in Hin. rewrite K in Hin.
    destruct review, ci, (48 <? _); cbn in Hin;
      repeat match goal with
             | H : _ \/ _ |- _ => destruct H
             | H : False |- _ => contradiction
             | H : (_, _) = (_, _) |- _ => injection H as <- <-
             end;
      repeat split; auto; discriminate.
Qed.

(** The sum kept for a column only reads that column. *)
Lemma fold_sumStep_columns (rows : list Sample.t) : forall acc : Sample.t,
  Sample.code_review_time (fold_left sumStep rows acc)
    = columnSum (map Sample.code_review_time rows) (Sample.code_review_time acc) /\
  Sample.cycle_time (fold_left sumStep rows acc)
    = columnSum (map Sample.cycle_time rows) (Sample.cycle_time acc) /\
  Sample.pr_merge_time (fold_left sumStep rows acc)
    = columnSum (map Sample.pr_merge_time rows) (Sample.pr_merge_time acc).
Proof.
  induction rows as [| row rows IH]; intros acc.
  - repeat split; reflexivity.
  - cbn [fold_left map columnSum].
    destruct (IH (sumStep acc row)) as (H1 & H2 & H3).
    rewrite H1, H2, H3. repeat split; reflexivity.
Qed.

(** The rules read the two means and the three rates, nothing else. *)
Lemma bottleneckRules_reads (a b : AverageMetrics) :
  code_review_time a = code_review_time b -> cycle_time a = cycle_time b ->
  prsPerWeek a = prsPerWeek b -> conflictRate a = conflictRate b ->
  avgConflictResolution a = avgConflictResolution b ->
  bottleneckRules a = bottleneckRules b.
Proof.
  intros H1 H2 H3 H4 H5. unfold bottleneckRules. rewrite H1, H2, H3, H4, H5. reflexivity.
Qed.

(** X7.  The findings depend on the review times and the cycle times of the
    samples alone: two windows with the same values in these two columns
    give the same findings, with the same costs, whatever their merge times
    are.  The merge time is averaged but never used. *)
Theorem bottlenecksOf_reads_two_columns (rows rows' : list Sample.t) :
  map Sample.code_review_time rows = map Sample.code_review_time rows' ->
  map Sample.cycle_time rows = map Sample.cycle_time rows' ->
  bottlenecksOf rows = bottlenecksOf rows'.
Proof.
  intros Hr Hc.
  assert (L : List.length rows = List.length rows').
  { rewrite <- (length_map Sample.cycle_time rows), Hc. apply length_map. }
  destruct rows as [| r rows], rows' as [| r' rows']; try discriminate L; [reflexivity |].
  rewrite !bottlenecksOf_cons. apply bottleneckRules_reads; try reflexivity.
  - unfold calculateAverageMetrics. cbv zeta. cbn [code_review_time].
    destruct (fold_sumStep_columns (r :: rows) emptyAcc) as (-> & _ & _).
    destruct (fold_sumStep_columns (r' :: rows') emptyAcc) as (-> & _ & _).
    unfold length_number. rewrite Hr, L. reflexivity.
  - unfold calculateAverageMetrics. cbv zeta. cbn [cycle_time].
    destruct (fold_sumStep_columns (r :: rows) emptyAcc) as (_ & -> & _).
    destruct (fold_sumStep_columns (r' :: rows') emptyAcc) as (_ & -> & _).
    unfold length_number. rewrite Hc, L. reflexivity.
Qed.

Lemma bottlenecksOf_reads_two_columns_witness :
  bottlenecksOf (flatWindow 500 60)
  = bottlenecksOf (repeat {| Sample.code_review_time := JNum 500;
                             Sample.cycle_time := JNum 60;
                             Sample.pr_merge_time := JNull |} 30).
Proof.
  apply bottlenecksOf_reads_two_columns; reflexivity.
Defined.

Lemma columnSum_zeroFalsy (values : list JsVal) : forall acc,
  columnSum (map (fun v => JNum (or_number v 0)) values) acc = columnSum values acc.
Proof.
  assert (E : forall v, or_number (JNum (or_number v 0)) 0 = or_number v 0).
  { intros [| | x]; try reflexivity. cbn [or_number].
    destruct (Js.falsy x) eqn:T; cbn [or_number]; [reflexivity | rewrite T; reflexivity]. }
  induction values as [| v values IH]; intros acc; [reflexivity |].
  cbn [map columnSum fold_left]. rewrite E. apply IH.
Qed.

(** Adding [0] leaves every number but [-0] as it is. *)
Lemma add_zero_r (x : float) : Prim2SF x <> S754_zero true -> x + 0 = x.
Proof.
  intros H. apply Prim2SF_inj. rewrite add_spec. change (Prim2SF 0) with (S754_zero false).
  destruct (Prim2SF x) as [[|] | | |]; try reflexivity. congruence.
Qed.

(** What [|| 0] gives is never [-0], so adding [0] to it changes nothing. *)
Lemma or_number_add_zero (v : JsVal) : or_number v 0 + 0 = or_number v 0.
Proof.
  destruct v as [| | x]; try reflexivity. cbn [or_number].
  destruct (Js.falsy x) eqn:T; [reflexivity |].
  apply add_zero_r. intros Z. unfold Js.falsy in T. apply orb_false_elim in T.
  destruct T as [T _]. rewrite Binary64.is_zero_spec, Z in T. discriminate T.
Qed.

Lemma or_number_falsyValue (v : JsVal) : falsyValue v = true -> or_number v 0 = 0.
Proof. destruct v as [| | x]; try reflexivity. cbn. intros ->. reflexivity. Qed.

Lemma or_number_idempotent (v : JsVal) : or_number (JNum (or_number v 0)) 0 = or_number v 0.
Proof.
  destruct v as [| | x]; try reflexivity. cbn [or_number].
  destruct (Js.falsy x) eqn:T; cbn [or_number]; [reflexivity | rewrite T; reflexivity].
Qed.

(** Values that [|| 0] replaces leave the sum of a column where it is. *)
Lemma columnSum_falsy (nulls : list JsVal) (acc : JsVal) :
  nulls <> [] -> forallb falsyValue nulls = true ->
  columnSum nulls acc = JNum (or_number acc 0).
Proof.
  intros Hne Hf. destruct nulls as [| v nulls]; [congruence |]. clear Hne.
  cbn [forallb] in Hf. apply andb_prop in Hf. destruct Hf as [Hv Hf].
  cbn [columnSum fold_left]. rewrite (or_number_falsyValue v Hv), or_number_add_zero.
  induction nulls as [| w nulls IH]; [reflexivity |].
  cbn [forallb] in Hf. apply andb_prop in Hf. destruct Hf as [Hw Hf].
  cbn [fold_left]. rewrite (or_number_falsyValue w Hw), or_number_idempotent,
    or_number_add_zero. apply IH, Hf.
Qed.

(** The mean of a column over a window that ends in samples whose value
    [|| 0] replaces: the sum of the samples before them, over the count of
    all. *)
Lemma mean_with_falsy (column : Sample.t -> JsVal) (rows nulls : list Sample.t) :
  nulls <> [] -> forallb falsyValue (map column nulls) = true ->
  to_number (columnSum (map column (rows ++ nulls)) JUndefined)
  = or_number (columnSum (map column rows) JUndefined) 0.
Proof.
  intros Hne Hf. rewrite map_app. unfold columnSum at 1. rewrite fold_left_app.
  fold (columnSum (map column rows) JUndefined).
  fold (columnSum (map column nulls) (columnSum (map column rows) JUndefined)).
  rewrite columnSum_falsy; [reflexivity | | exact Hf].
  intros E. apply map_eq_nil in E. congruence.
Qed.

(** X8.  A sample whose value is [NULL], missing, [0] or [NaN] is not left
    out of the window: it adds [0] to the sum and is still counted in the
    number of samples the sum is divided by.  For a window that ends in such
    samples, each mean is the sum of the samples before them divided by the
    number of all samples of the window, theirs included; accordingly,
    putting the number [0] in place of every such value changes no average. *)
Theorem calculateAverageMetrics_zeroFalsy (rows nulls : list Sample.t) :
  nulls <> [] ->
  (forallb falsyValue (map Sample.code_review_time nulls) = true ->
   code_review_time (calculateAverageMetrics (rows ++ nulls))
   = or_number (Sample.code_review_time (fold_left sumStep rows emptyAcc)) 0
     / of_N (N.of_nat (List.length rows + List.length nulls))) /\
  (forallb falsyValue (map Sample.cycle_time nulls) = true ->
   cycle_time (calculateAverageMetrics (rows ++ nulls))
   = or_number (Sample.cycle_time (fold_left sumStep rows emptyAcc)) 0
     / of_N (N.of_nat (List.length rows + List.length nulls))) /\
  (forallb falsyValue (map Sample.pr_merge_time nulls) = true ->
   pr_merge_time (calculateAverageMetrics (rows ++ nulls))
   = or_number (Sample.pr_merge_time (fold_left sumStep rows emptyAcc)) 0
     / of_N (N.of_nat (List.length rows + List.length nulls))) /\
  calculateAverageMetrics (map zeroFalsy (rows ++ nulls))
  = calculateAverageMetrics (rows ++ nulls).
Proof.
  intros Hne.
  assert (L : length_number (rows ++ nulls)
              = of_N (N.of_nat (List.length rows + List.length nulls)))
    by (unfold length_number; rewrite length_app; reflexivity).
  split; [| split; [| split]].
  - intros Hf. unfold calculateAverageMetrics. cbv zeta. cbn [code_review_time].
    destruct (fold_sumStep_columns (rows ++ nulls) emptyAcc) as (-> & _ & _).
    destruct (fold_sumStep_columns rows emptyAcc) as (-> & _ & _).
    cbn [emptyAcc Sample.code_review_time].
    rewrite (mean_with_falsy Sample.code_review_time rows nulls Hne Hf), L. reflexivity.
  - intros Hf. unfold calculateAverageMetrics. cbv zeta. cbn [cycle_time].
    destruct (fold_sumStep_columns (rows ++ nulls) emptyAcc) as (_ & -> & _).
    destruct (fold_sumStep_columns rows emptyAcc) as (_ & -> & _).
    cbn [emptyAcc Sample.cycle_time].
    rewrite (mean_with_falsy Sample.cycle_time rows nulls Hne Hf), L. reflexivity.
  - intros Hf. unfold calculateAverageMetrics. cbv zeta. cbn [pr_merge_time].
    destruct (fold_sumStep_columns (rows ++ nulls) emptyAcc) as (_ & _ & ->).
    destruct (fold_sumStep_columns rows emptyAcc) as (_ & _ & ->).
    cbn [emptyAcc Sample.pr_merge_time].
    rewrite (mean_with_falsy Sample.pr_merge_time rows nulls Hne Hf), L. reflexivity.
  - generalize (rows ++ nulls). clear. intros rows.
    unfold calculateAverageMetrics. cbv zeta.
    destruct (fold_sumStep_columns (map zeroFalsy rows) emptyAcc) as (-> & -> & ->).
    destruct (fold_sumStep_columns rows emptyAcc) as (-> & -> & ->).
    rewrite !map_map. cbn [zeroFalsy Sample.code_review_time Sample.cycle_time
                           Sample.pr_merge_time].
    rewrite <- (map_map Sample.code_review_time (fun v => JNum (or_number v 0))).
    rewrite <- (map_map Sample.cycle_time (fun v => JNum (or_number v 0))).
    rewrite <- (map_map Sample.pr_merge_time (fun v => JNum (or_number v 0))).
    rewrite !columnSum_zeroFalsy.
    unfold length_number. rewrite length_map. reflexivity.
Qed.

(** One sample of 300 minutes and 50 hours followed by one without values:
    the means are 150 and 25, not 300 and 50. *)
Lemma calculateAverageMetrics_zeroFalsy_witness :
  code_review_time (calculateAverageMetrics (measuredThenMissing 300 50)) = 150 /\
  cycle_time (calculateAverageMetrics (measuredThenMissing 300 50)) = 25.
Proof.
  pose proof (calculateAverageMetrics_zeroFalsy
                [ {| Sample.code_review_time := JNum 300; Sample.cycle_time := JNum 50;
                     Sample.pr_merge_time := JNum 90 |} ]
                [ {| Sample.code_review_time := JNull; Sample.cycle_time := JNum 0;
                     Sample.pr_merge_time := JUndefined |} ]
                ltac:(discriminate)) as (R & C & _).
  split.
  - exact (R eq_refl).
  - exact (C eq_refl).
Defined.

(** * Counts as numbers *)

Module Counts.
Local Open Scope Z_scope.

Lemma Zdigits2_upper (m k : Z) : 0 < m < 2 ^ k -> 0 <= k -> Zdigits2 m <= k.
Proof.
  intros [Hm Hk] K. destruct (Binary64.Zdigits2_bounds m Hm) as [L D].
  destruct (Z.le_gt_cases (Zdigits2 m) k) as [H | H]; [exact H | exfalso].
  assert (2 ^ k <= 2 ^ (Zdigits2 m - 1)) by (apply Z.pow_le_mono_r; lia). lia.
Qed.

Lemma round_nearest_even_le (m : Z) (l : location) : round_nearest_even m l <= m + 1.
Proof.
  destruct l as [| []]; cbn [round_nearest_even]; try lia.
  destruct (Z.even m); lia.
Qed.

(** Rounding a positive mantissa of moderate size at a moderate exponent
    stays finite. *)
Lemma binary_round_aux_finite (m e : Z) (l : location) :
  0 < m < 2 ^ 115 -> -52 <= e <= 0 ->
  sf_pos_finite (binary_round_aux prec emax false m e l) = true.
Proof.
  intros Hm He. unfold binary_round_aux.
  destruct (Binary64.shr_fexp_pos m e l) as [P1 _];
    [lia | unfold SpecFloat.emin, prec, emax; lia |].
  destruct (Binary64.shr_fexp_spec m e l) as [V1 E1]; [lia |].
  destruct (shr_fexp prec emax m e l) as [mrs1 e1]. cbn [fst snd] in P1, V1, E1.
  pose proof (Zdigits2_upper m 115 Hm ltac:(lia)) as D.
  destruct (Binary64.Zdigits2_bounds m ltac:(lia)) as [_ D0].
  assert (B1 : -52 <= e1 <= 62).
  { rewrite E1. unfold fexp, SpecFloat.emin, prec, emax. lia. }
  assert (M1 : shr_m mrs1 <= m).
  { rewrite V1. apply Z.div_le_upper_bound; [apply Z.pow_pos_nonneg; lia |].
    assert (1 <= 2 ^ Z.max 0 (fexp prec emax (Zdigits2 m + e) - e))
      by (apply Z.lt_pred_le, Z.pow_pos_nonneg; lia).
    nia. }
  pose proof (Binary64.round_nearest_even_ge (shr_m mrs1) (loc_of_shr_record mrs1)) as Rl.
  pose proof (round_nearest_even_le (shr_m mrs1) (loc_of_shr_record mrs1)) as Ru.
  set (m2 := round_nearest_even (shr_m mrs1) (loc_of_shr_record mrs1)) in *.
  assert (H2 : 0 < m2 < 2 ^ 116).
  { split; [lia |]. change (2 ^ 116) with (2 * 2 ^ 115). lia. }
  destruct (Binary64.shr_fexp_pos m2 e1 loc_Exact) as [P2 _];
    [lia | unfold SpecFloat.emin, prec, emax; lia |].
  destruct (Binary64.shr_fexp_spec m2 e1 loc_Exact) as [_ E2]; [lia |].
  destruct (shr_fexp prec emax m2 e1 loc_Exact) as [mrs2 e2]. cbn [fst snd] in P2, E2.
  pose proof (Zdigits2_upper m2 116 H2 ltac:(lia)) as D2.
  destruct (Binary64.Zdigits2_bounds m2 ltac:(lia)) as [_ D20].
  assert (B2 : e2 <= 125).
  { rewrite E2. unfold fexp, SpecFloat.emin, prec, emax. lia. }
  destruct (shr_m mrs2) as [| p | p]; try lia.
  replace (e2 <=? emax - prec) with true; [reflexivity |].
  symmetry. apply Z.leb_le. unfold prec, emax. lia.
Qed.

Local Open Scope float_scope.

(** A count from 1 up to the largest [bigint] is a positive finite number. *)
Lemma of_N_pos_finite (n : N) :
  (0 < n < 2 ^ 63)%N -> sf_pos_finite (Prim2SF (of_N n)) = true.
Proof.
  intros Hn. unfold of_N. rewrite of_uint63_spec, Uint63.of_Z_spec.
  change (2 ^ 63)%N with 9223372036854775808%N in Hn.
  rewrite Z.mod_small by (change Uint63.wB with 9223372036854775808%Z; lia).
  destruct n as [| p]; [lia |]. cbn [Z.of_N binary_normalize]. unfold binary_round.
  assert (Hp : (0 < Zpos p < 2 ^ 63)%Z) by (change (2 ^ 63)%Z with 9223372036854775808%Z; lia).
  pose proof (Zdigits2_upper (Zpos p) 63 Hp ltac:(lia)) as D. cbn [Zdigits2] in D.
  set (d := Zpos (digits2_pos p)) in *.
  assert (D0 : (0 < d)%Z) by (subst d; lia).
  assert (E0 : fexp prec emax (d + 0) = (d - 53)%Z)
    by (unfold fexp, SpecFloat.emin, prec, emax; lia).
  rewrite E0. unfold shl_align.
  destruct (d - 53 - 0)%Z as [| k | k] eqn:K.
  - apply binary_round_aux_finite; [| lia].
    split; [lia |]. apply Z.lt_trans with (2 ^ 63)%Z; [lia | reflexivity].
  - apply binary_round_aux_finite; [| lia].
    split; [lia |]. apply Z.lt_trans with (2 ^ 63)%Z; [lia | reflexivity].
  - apply binary_round_aux_finite; [| lia].
    rewrite Binary64.pos_iter_xO. split; [lia |].
    assert (Zpos k <= 52)%Z by lia.
    assert (2 ^ Zpos k <= 2 ^ 52)%Z by (apply Z.pow_le_mono_r; lia).
    change (2 ^ 115)%Z with (2 ^ 63 * 2 ^ 52)%Z.
    assert (0 < 2 ^ Zpos k)%Z by (apply Z.pow_pos_nonneg; lia).
    change (2 ^ 63)%Z with 9223372036854775808%Z in *.
    change (2 ^ 52)%Z with 4503599627370496%Z in *. nia.
Qed.

End Counts.

(** * Averages of a window *)

Lemma or_number_zero_nonneg (v : JsVal) :
  notNegative v = true -> sf_nonneg (Prim2SF (or_number v 0)) = true.
Proof. intros H. apply Signs.nonneg_of_leb_zero, H. Qed.

Lemma or_number_number_nonneg (a : Js.number) :
  sf_nonneg (Prim2SF a) = true -> sf_nonneg (Prim2SF (or_number (JNum a) 0)) = true.
Proof. intros H. unfold or_number. destruct (Js.falsy a); [reflexivity | exact H]. Qed.

(** The sum of a column whose values are not negative is a number that is
    not negative. *)
Lemma columnSum_nonneg (values : list JsVal) : forall a : Js.number,
  sf_nonneg (Prim2SF a) = true -> forallb notNegative values = true ->
  exists s, columnSum values (JNum a) = JNum s /\ sf_nonneg (Prim2SF s) = true.
Proof.
  induction values as [| v values IH]; intros a Ha Hv; [exists a; auto |].
  cbn [forallb] in Hv. apply andb_prop in Hv. destruct Hv as [Hv Hvs].
  cbn [columnSum fold_left]. apply IH; [| exact Hvs].
  apply Signs.add_nonneg;
    [apply or_number_number_nonneg, Ha | apply or_number_zero_nonneg, Hv].
Qed.

Lemma mean_nonneg (values : list JsVal) (count : Js.number) :
  values <> [] -> forallb notNegative values = true ->
  sf_pos_finite (Prim2SF count) = true ->
  (0 <=? to_number (columnSum values JUndefined) / count) = true.
Proof.
  intros Hne Hv Hc. destruct values as [| v values]; [congruence |].
  cbn [forallb] in Hv. apply andb_prop in Hv. destruct Hv as [Hv Hvs].
  cbn [columnSum fold_left].
  destruct (columnSum_nonneg values (or_number JUndefined 0 + or_number v 0))
    as (s & Hs & N); [| exact Hvs |].
  { apply Signs.add_nonneg; [reflexivity | apply or_number_zero_nonneg, Hv]. }
  unfold columnSum in Hs. rewrite Hs. cbn [to_number].
  apply Binary64.leb_zero_of_nonneg, Binary64.div_nonneg; assumption.
Qed.

(** X9.  For a window of at least one sample whose values are missing,
    [NULL] or not negative, the three means are numbers that are not
    negative: no mean of such a window is [NaN] or below zero (array lengths
    are below [2^32]). *)
Theorem calculateAverageMetrics_never_negative (rows : list Sample.t) :
  rows <> [] -> (Z.of_nat (List.length rows) < 4294967296)%Z ->
  forallb notNegative (map Sample.code_review_time rows) = true ->
  forallb notNegative (map Sample.cycle_time rows) = true ->
  forallb notNegative (map Sample.pr_merge_time rows) = true ->
  (0 <=? code_review_time (calculateAverageMetrics rows)) = true /\
  (0 <=? cycle_time (calculateAverageMetrics rows)) = true /\
  (0 <=? pr_merge_time (calculateAverageMetrics rows)) = true.
Proof.
  intros Hne Hlen H1 H2 H3.
  assert (C : sf_pos_finite (Prim2SF (length_number rows)) = true).
  { unfold length_number. apply Counts.of_N_pos_finite.
    change (2 ^ 63)%N with 9223372036854775808%N.
    destruct rows; [congruence |]. cbn [List.length] in *. lia. }
  assert (M : forall f : Sample.t -> JsVal, map f rows <> [])
    by (intros f E; apply map_eq_nil in E; congruence).
  unfold calculateAverageMetrics. cbv zeta.
  cbn [code_review_time cycle_time pr_merge_time].
  destruct (fold_sumStep_columns rows emptyAcc) as (-> & -> & ->).
  cbn [emptyAcc Sample.code_review_time Sample.cycle_time Sample.pr_merge_time].
  repeat split; apply mean_nonneg; auto.
Qed.

Lemma calculateAverageMetrics_never_negative_witness :
  (0 <=? code_review_time (calculateAverageMetrics (flatWindow 500 60))) = true /\
  (0 <=? cycle_time (calculateAverageMetrics (flatWindow 500 60))) = true /\
  (0 <=? pr_merge_time (calculateAverageMetrics (flatWindow 500 60))) = true.
Proof.
  apply (calculateAverageMetrics_never_negative (flatWindow 500 60)).
  - discriminate.
  - reflexivity.
  - vm_compute. reflexivity.
  - vm_compute. reflexivity.
  - vm_compute. reflexivity.
Defined.

(** * The monitoring buffer *)

Module MonitoringFacts.
Import Monitoring.

Lemma slice_last_short {A : Type} (n : nat) (l : list A) :
  (List.length l <= n)%nat -> slice_last n l = l.
Proof.
  intros H. unfold slice_last. replace (List.length l - n)%nat with 0%nat by lia. reflexivity.
Qed.

Lemma slice_last_length {A : Type} (n : nat) (l : list A) :
  List.length (slice_last n l) = Nat.min n (List.length l).
Proof. unfold slice_last. rewrite length_skipn. lia. Qed.

(** The last [n] of a list that was already cut to its last [n] and then
    extended are the last [n] of the whole. *)
Lemma slice_last_app {A : Type} (n : nat) (a b : list A) :
  slice_last n (slice_last n a ++ b) = slice_last n (a ++ b).
Proof.
  destruct (Nat.le_gt_cases (List.length a) n) as [H | H].
  - rewrite (slice_last_short n a H). reflexivity.
  - unfold slice_last. rewrite !length_app, length_skipn.
    rewrite !skipn_app, length_skipn, skipn_skipn.
    f_equal; f_equal; lia.
Qed.

(** One call keeps the last [MAX_METRICS] of the array extended by the new
    metric. *)
Lemma recordRequest_metrics (this : MonitoringService) (c : Call) :
  metrics (recordRequest this (call_now c) (call_req c) (call_res c) (call_responseTime c))
  = slice_last MAX_METRICS (metrics this ++ [metricOf c]).
Proof.
  unfold recordRequest. cbv zeta. cbn [metrics]. fold (metricOf c).
  destruct (Nat.ltb_spec MAX_METRICS (List.length (metrics this ++ [metricOf c]))) as [H | H].
  - reflexivity.
  - symmetry. apply slice_last_short, H.
Qed.

(** From a service within the bound, a sequence of calls keeps the last
    [MAX_METRICS] of everything recorded. *)
Lemma recordAll_metrics (calls : list Call) : forall this : MonitoringService,
  (List.length (metrics this) <= MAX_METRICS)%nat ->
  metrics (recordAll this calls)
  = slice_last MAX_METRICS (metrics this ++ map metricOf calls).
Proof.
  unfold recordAll.
  induction calls as [| c calls IH]; intros this B.
  - cbn [fold_left map]. rewrite app_nil_r. symmetry. apply slice_last_short, B.
  - cbn [fold_left map]. rewrite IH.
    + rewrite recordRequest_metrics, slice_last_app, <- app_assoc. reflexivity.
    + rewrite recordRequest_metrics, slice_last_length. lia.
Qed.

End MonitoringFacts.

(** X10.  The monitoring buffer is bounded and drops oldest first: after
    any sequence of recorded requests, starting from the fresh service, it
    holds exactly the metrics of the most recent 10000 requests, in the order
    they were recorded, and never more than 10000 entries. *)
Theorem monitoring_keeps_most_recent (calls : list Monitoring.Call) :
  Monitoring.metrics (Monitoring.recordAll Monitoring.monitoring calls)
  = Monitoring.slice_last Monitoring.MAX_METRICS (map Monitoring.metricOf calls) /\
  (List.length (Monitoring.metrics (Monitoring.recordAll Monitoring.monitoring calls))
   <= Monitoring.MAX_METRICS)%nat /\
  Z.of_nat Monitoring.MAX_METRICS = 10000%Z.
Proof.
  rewrite MonitoringFacts.recordAll_metrics
    by (cbn [Monitoring.monitoring Monitoring.metrics List.length]; lia).
  cbn [Monitoring.monitoring Monitoring.metrics app]. split; [reflexivity |]. split.
  - rewrite MonitoringFacts.slice_last_length. lia.
  - unfold Monitoring.MAX_METRICS. lia.
Qed.

(** X11.  A request that was just recorded is kept, also when the buffer is
    full, and [getMetrics] returns it for every cutoff that is a truthy
    number not after its timestamp. *)
Theorem monitoring_record_then_get (this : Monitoring.MonitoringService)
    (c : Monitoring.Call) (since later : Js.number) :
  Js.falsy since = false ->
  (since <=? Monitoring.call_now c) = true ->
  In (Monitoring.metricOf c)
     (Monitoring.getMetrics
        (Monitoring.recordRequest this (Monitoring.call_now c) (Monitoring.call_req c)
           (Monitoring.call_res c) (Monitoring.call_responseTime c))
        (Some since) later).
Proof.
  intros T Hs. unfold Monitoring.getMetrics. cbv zeta. rewrite T.
  apply filter_In. split; [| exact Hs].
  rewrite MonitoringFacts.recordRequest_metrics. unfold Monitoring.slice_last.
  rewrite skipn_app, length_app. cbn [List.length].
  apply in_or_app. right.
  replace (_ - _ - _)%nat with 0%nat; [left; reflexivity |].
  unfold Monitoring.MAX_METRICS. lia.
Qed.

Lemma monitoring_record_then_get_witness :
  In (Monitoring.metricOf sampleCall)
     (Monitoring.getMetrics
        (Monitoring.recordRequest Monitoring.monitoring (Monitoring.call_now sampleCall)
           (Monitoring.call_req sampleCall) (Monitoring.call_res sampleCall)
           (Monitoring.call_responseTime sampleCall))
        (Some 1699999999000) 1700000005000).
Proof.
  apply (monitoring_record_then_get Monitoring.monitoring sampleCall); reflexivity.
Defined.

(** X12.  [getMetrics] takes a [since] of [0] (or [NaN]) for a missing one:
    it returns what [getMetrics()] returns, the metrics of the last hour in
    the order they were recorded, and leaves out every metric of the buffer
    that is older than an hour, although it was recorded after the moment
    0.  After up to 10000 recorded requests on the fresh service these are
    the metrics of the requests of the last hour. *)
Theorem monitoring_falsy_since (this : Monitoring.MonitoringService)
    (since now : Js.number) :
  Js.falsy since = true ->
  Monitoring.getMetrics this (Some since) now = Monitoring.getMetrics this None now /\
  (forall m, In m (Monitoring.getMetrics this (Some since) now) ->
     (now - 3600000 <=? Monitoring.timestamp m) = true) /\
  (forall m, In m (Monitoring.metrics this) ->
     (now - 3600000 <=? Monitoring.timestamp m) = false ->
     ~ In m (Monitoring.getMetrics this (Some since) now)) /\
  (forall m, In m (Monitoring.metrics this) ->
     (now - 3600000 <=? Monitoring.timestamp m) = true ->
     In m (Monitoring.getMetrics this (Some since) now)) /\
  (forall calls : list Monitoring.Call,
     (List.length calls <= Monitoring.MAX_METRICS)%nat ->
     Monitoring.getMetrics (Monitoring.recordAll Monitoring.monitoring calls) (Some since) now
     = map Monitoring.metricOf
         (filter (fun c => now - 3600000 <=? Monitoring.call_now c) calls)).
Proof.
  intros T. unfold Monitoring.getMetrics. cbv zeta. rewrite T.
  split; [reflexivity |]. split; [| split; [| split]].
  - intros m H. apply filter_In in H. apply H.
  - intros m _ Old H. apply filter_In in H. destruct H as [_ H]. congruence.
  - intros m H Recent. apply filter_In. split; assumption.
  - intros calls B.
    rewrite MonitoringFacts.recordAll_metrics
      by (cbn [Monitoring.monitoring Monitoring.metrics List.length]; lia).
    cbn [Monitoring.monitoring Monitoring.metrics app].
    rewrite MonitoringFacts.slice_last_short by (rewrite length_map; exact B).
    clear B. induction calls as [| c calls IH]; [reflexivity |].
    cbn [map filter]. cbn [Monitoring.metricOf Monitoring.timestamp] in *.
    destruct (now - 3600000 <=? Monitoring.call_now c); cbn [map]; rewrite IH; reflexivity.
Qed.

(** A request recorded at 1700000000000 and one recorded 59 minutes later
    are in the buffer; two minutes after the second, [getMetrics(0)] returns
    the second only. *)
Lemma monitoring_falsy_since_witness :
  Monitoring.getMetrics (Monitoring.recordAll Monitoring.monitoring [sampleCall; laterCall])
    (Some 0) 1700003660000
  = [Monitoring.metricOf laterCall] /\
  In (Monitoring.metricOf sampleCall)
     (Monitoring.metrics (Monitoring.recordAll Monitoring.monitoring [sampleCall; laterCall])) /\
  ~ In (Monitoring.metricOf sampleCall)
      (Monitoring.getMetrics
         (Monitoring.recordAll Monitoring.monitoring [sampleCall; laterCall])
         (Some 0) 1700003660000).
Proof.
  pose proof (fun this => monitoring_falsy_since this 0 1700003660000 eq_refl) as W.
  split; [| split].
  - etransitivity.
    + apply (proj2 (proj2 (proj2 (proj2 (W Monitoring.monitoring)))) [sampleCall; laterCall]).
      unfold Monitoring.MAX_METRICS. cbn [List.length]. lia.
    + vm_compute. reflexivity.
  - vm_compute. left. reflexivity.
  - apply (proj1 (proj2 (proj2
             (W (Monitoring.recordAll Monitoring.monitoring [sampleCall; laterCall]))))).
    + vm_compute. left. reflexivity.
    + reflexivity.
Defined.
